(** * bikeshare.py: descriptive statistics over bike-share trip records

    A shallow embedding of [src/bikeshare.py] and the proofs that settle the
    statements of its specification.

    Modelling conventions.
    - A Python [str] is the [string] of the bytes of its UTF-8 encoding.
      [str.strip] removes the blanks of Unicode, all of them; [str.lower]
      is written out for ASCII and takes the case table of Unicode beyond
      ASCII as a parameter ([Str.Unicode]).  Strings compare as Python
      compares them: byte order on UTF-8 is code-point order.
    - A pandas [Series] is the [list] of its values in row order.  A blank
      cell of a file is a missing value (NaN, NaT): [None], and [Float nan]
      in a numeric column; any column can hold one, and [mode],
      [value_counts], [min], [max], [sum] and [mean] skip it.
    - A [DataFrame] is the list of its rows together with the columns that
      may or may not be there (['Gender'], ['Birth Year'], ['Trip']).
    - A Python exception is a value of [exn]; a call that may raise returns
      a [result].  Code that reads or assigns columns of the frame it was
      handed runs in the state monad [Frame], whose state is that frame.
    - [Series.mode] is pandas' [algorithms.mode]: the values of highest
      count, then [np.sort] ("modes of the Series in sorted order").
      [Series.value_counts] counts in order of first appearance and sorts by
      descending count; the order it leaves equal counts in is numpy's
      business and nothing below relies on it.
    - An [int64] column adds up modulo 2^64.  A [float] is NaN, an infinity
      or the rational number a binary64 value stands for; rounding to
      binary64 and the order in which numpy adds up a float column are
      parameters ([Float64]), known through the facts the proofs need. *)

From Stdlib Require Import ZArith List String Ascii Bool Lia QArith.
From Stdlib Require Import Permutation Sorted.
From Stdlib Require Qcanon.
Import ListNotations.

Local Open Scope string_scope.
Local Open Scope Z_scope.

(** ** Python strings *)

Module Str.

(** [c.lower()] on one ASCII character. *)
Definition lower_ascii (c : ascii) : ascii :=
  let n := N_of_ascii c in
  if ((65 <=? n) && (n <=? 90))%N then ascii_of_N (n + 32) else c.

(** The string of the given bytes. *)
Definition of_bytes (l : list N) : string :=
  string_of_list_ascii (map ascii_of_N l).

(** Whether a character starts with a continuation byte of UTF-8
    (10xxxxxx). *)
Definition continues (c : string) : bool :=
  match c with
  | EmptyString => false
  | String b _ => ((128 <=? N_of_ascii b) && (N_of_ascii b <? 192))%N
  end.

(** The characters of a string: each is a byte that continues nothing,
    with the continuation bytes that follow it. *)
Fixpoint chars (s : string) : list string :=
  match s with
  | EmptyString => []
  | String b s' =>
      match chars s' with
      | [] => [String b EmptyString]
      | c :: cs =>
          if continues c then String b c :: cs
          else String b EmptyString :: c :: cs
      end
  end.

(** The characters put back together. *)
Definition join (cs : list string) : string := fold_right append "" cs.

(** The characters for which [c.isspace()] holds, which are the ones
    [strip] removes: U+0009..U+000D, U+001C..U+0020, U+0085, U+00A0, U+1680,
    U+2000..U+200A, U+2028, U+2029, U+202F, U+205F and U+3000. *)
Definition blanks : list string :=
  map of_bytes
    [[9]; [10]; [11]; [12]; [13]; [28]; [29]; [30]; [31]; [32];
     [194; 133]; [194; 160]; [225; 154; 128];
     [226; 128; 128]; [226; 128; 129]; [226; 128; 130]; [226; 128; 131];
     [226; 128; 132]; [226; 128; 133]; [226; 128; 134]; [226; 128; 135];
     [226; 128; 136]; [226; 128; 137]; [226; 128; 138];
     [226; 128; 168]; [226; 128; 169]; [226; 128; 175];
     [226; 129; 159]; [227; 128; 128]]%N.

(** [c.isspace()] on one character. *)
Definition isspace (c : string) : bool := existsb (String.eqb c) blanks.

(** What [str.lower] takes from the Unicode database beyond ASCII: the
    lower-case form of a character ([_PyUnicode_ToLowerFull], one to three
    characters), and whether a capital sigma is in final position between
    the text before and the text after it.  Blanks have no case. *)
Class Unicode : Type := {
  tolower : string -> string;
  final_sigma : string -> string -> bool;
  tolower_blank : forall c : string, isspace c = true -> tolower c = c
}.

(** U+03A3, and the two small sigmas U+03C2 (final) and U+03C3. *)
Definition capital_sigma : string := of_bytes [206; 163]%N.
Definition small_final_sigma : string := of_bytes [207; 130]%N.
Definition small_sigma : string := of_bytes [207; 131]%N.

Section Lower.
Context {U : Unicode}.

(** The lower-case form of the character [c] that stands between
    [before] and [after]. *)
Definition lower_char (before c after : string) : string :=
  match c with
  | String b EmptyString =>
      if (N_of_ascii b <? 128)%N then String (lower_ascii b) EmptyString
      else tolower c
  | _ =>
      if String.eqb c capital_sigma then
        if final_sigma before after then small_final_sigma else small_sigma
      else tolower c
  end.

Fixpoint lower_from (before : string) (cs : list string) : list string :=
  match cs with
  | [] => []
  | c :: cs' => lower_char before c (join cs') :: lower_from (before ++ c) cs'
  end.

(** [s.lower()] *)
Definition lower (s : string) : string := join (lower_from "" (chars s)).

End Lower.

(** Dropping the leading characters for which [p] holds. *)
Fixpoint dropwhile {A} (p : A -> bool) (l : list A) : list A :=
  match l with
  | [] => []
  | x :: l' => if p x then dropwhile p l' else l
  end.

(** [s.strip()]: the blanks at both ends go. *)
Definition strip (s : string) : string :=
  join (rev (dropwhile isspace (rev (dropwhile isspace (chars s))))).

(** Truth value of a string: [bool(s)]. *)
Definition truthy (s : string) : bool :=
  match s with EmptyString => false | _ => true end.

(** [x in l] for a list of strings. *)
Definition mem (x : string) (l : list string) : bool :=
  existsb (String.eqb x) l.

End Str.

(** ** Exceptions and results *)

(** The exceptions the code meets.  [ParserError] and [EmptyDataError] are
    the ones of [pandas.errors]. *)
Inductive exn : Type :=
| KeyError (key : string)
| ValueError (msg : string)
| OverflowError (msg : string)
| FileNotFoundError (path : string)
| ParserError (msg : string)
| EmptyDataError (msg : string).

(** [isinstance(e, ValueError)], which is what [except ValueError] asks:
    the two classes of pandas derive from [ValueError]. *)
Definition is_ValueError (e : exn) : bool :=
  match e with
  | ValueError _ | ParserError _ | EmptyDataError _ => true
  | KeyError _ | OverflowError _ | FileNotFoundError _ => false
  end.

Inductive result (A : Type) : Type :=
| Ok (a : A)
| Raise (e : exn).

Arguments Ok {A} a.
Arguments Raise {A} e.

Definition is_ok {A} (r : result A) : bool :=
  match r with Ok _ => true | Raise _ => false end.

Definition rbind {A B} (r : result A) (k : A -> result B) : result B :=
  match r with
  | Ok a => k a
  | Raise e => Raise e
  end.

Declare Scope result_scope.
Delimit Scope result_scope with result.
Notation "x <- r ;; k" := (rbind r (fun x => k))
  (at level 61, r at next level, right associativity) : result_scope.

(** ** Numbers *)

(** [float] values: NaN, the two infinities, or the rational number a
    finite binary64 value stands for. *)
Inductive pyfloat : Type :=
| nan
| inf (negative : bool)
| fin (q : Q).

(** A value of a numeric column: of an [int64] column, or of a [float64]
    one, where a blank cell is NaN. *)
Inductive number : Type :=
| Int (z : Z)
| Float (x : pyfloat).

(** What the code takes from binary64 arithmetic: rounding a rational
    number to a [float], and the sum numpy forms of the values of a float
    column, in whichever order it adds them up.  Rounding sees the number,
    not the fraction that denotes it; the integers up to 2^53 are floats;
    and a sum of integers that stays within 2^53 in absolute value is
    exact in any order. *)
Class Float64 : Type := {
  rnd : Q -> pyfloat;
  fsum : list pyfloat -> pyfloat;
  rnd_proper : forall p q : Q, p == q -> rnd p = rnd q;
  rnd_integer : forall z : Z,
      Z.abs z <= 2 ^ 53 -> rnd (inject_Z z) = fin (inject_Z z);
  fsum_integers : forall l : list Z,
      fold_right Z.add 0 (map Z.abs l) <= 2 ^ 53 ->
      fsum (map (fun z => fin (inject_Z z)) l)
      = fin (inject_Z (fold_right Z.add 0 l))
}.

(** ** Column element types

    What the column operations need of the values of a column: equality,
    for counting, and the order [np.sort] puts them in. *)

Class Dtype (A : Type) : Type := {
  eqb : A -> A -> bool;
  leb : A -> A -> bool
}.

#[export] Instance Dtype_Z : Dtype Z := {| eqb := Z.eqb; leb := Z.leb |}.

#[export] Instance Dtype_string : Dtype string :=
  {| eqb := String.eqb; leb := String.leb |}.

(** The laws the two operations obey at every column type used here. *)
Class DtypeLaws (A : Type) `{Dtype A} : Prop := {
  eqb_eq : forall x y : A, eqb x y = true <-> x = y;
  leb_total : forall x y : A, leb x y = true \/ leb y x = true;
  leb_trans : forall x y z : A,
      leb x y = true -> leb y z = true -> leb x z = true;
  leb_antisym : forall x y : A, leb x y = true -> leb y x = true -> x = y
}.

(** ** pandas Series *)

Module Series.

Section Ops.
Context {A : Type} `{Dtype A}.

(** Number of occurrences of [x] in the column. *)
Fixpoint count (x : A) (s : list A) : nat :=
  match s with
  | [] => 0
  | y :: s' => ((if eqb x y then 1 else 0) + count x s')%nat
  end.

(** The distinct values in order of first appearance (the order in which
    the hash table of [value_counts] and [mode] meets them). *)
Fixpoint unique (s : list A) : list A :=
  match s with
  | [] => []
  | x :: s' => x :: filter (fun y => negb (eqb x y)) (unique s')
  end.

(** The highest occurrence count of the column. *)
Definition max_count (s : list A) : nat :=
  fold_right Nat.max 0%nat (map (fun x => count x s) s).

(** [np.sort]: ascending. *)
Fixpoint insert (x : A) (l : list A) : list A :=
  match l with
  | [] => [x]
  | y :: l' => if leb x y then x :: l else y :: insert x l'
  end.

Definition sort (l : list A) : list A := fold_right insert [] l.

(** [s.mode()] on the values that are there: every value of highest
    count, sorted. *)
Definition mode (s : list A) : list A :=
  sort (filter (fun x => Nat.eqb (count x s) (max_count s)) (unique s)).

(** [s[0]] on a Series with the default index. *)
Definition item0 (s : list A) : result A :=
  match s with
  | x :: _ => Ok x
  | [] => Raise (KeyError "0")
  end.

(** Sorting the counts in descending order; of two values with the same
    count the one that appeared first stays first. *)
Fixpoint insert_count (p : A * nat) (l : list (A * nat)) : list (A * nat) :=
  match l with
  | [] => [p]
  | q :: l' => if (snd q <=? snd p)%nat then p :: l else q :: insert_count p l'
  end.

(** [s.value_counts()] on the values that are there. *)
Definition value_counts (s : list A) : list (A * nat) :=
  fold_right insert_count [] (map (fun x => (x, count x s)) (unique s)).

(** [s.dropna()], the values that are there; [mode], [value_counts], [min]
    and [max] skip NaN. *)
Fixpoint dropna (s : list (option A)) : list A :=
  match s with
  | [] => []
  | Some x :: s' => x :: dropna s'
  | None :: s' => dropna s'
  end.

(** [s == x] at one entry: NaN equals nothing. *)
Definition eq (v : option A) (x : A) : bool :=
  match v with
  | Some y => eqb y x
  | None => false
  end.

End Ops.

(** The values of a column of dtype [int64], when the column is one:
    [read_csv] makes a numeric column [int64] when every cell holds an
    integer and [float64] otherwise. *)
Fixpoint ints (s : list number) : option (list Z) :=
  match s with
  | [] => Some []
  | Int z :: s' => option_map (cons z) (ints s')
  | Float _ :: _ => None
  end.

(** The sum of integers. *)
Definition Zsum (l : list Z) : Z := fold_right Z.add 0 l.

(** The [int64] that an integer is modulo 2^64. *)
Definition wrap64 (z : Z) : Z := (z + 2 ^ 63) mod 2 ^ 64 - 2 ^ 63.

Definition isnan (x : pyfloat) : bool :=
  match x with nan => true | _ => false end.

(** NaN replaced by 0, as the reductions of pandas do before adding up. *)
Definition fill0 (x : pyfloat) : pyfloat := if isnan x then fin 0 else x.

Section Numeric.
Context {F : Float64}.

(** A value of a numeric column as a [float]. *)
Definition to_float (n : number) : pyfloat :=
  match n with
  | Int z => rnd (inject_Z z)
  | Float x => x
  end.

(** A [float] divided by a count. *)
Definition fdiv (x : pyfloat) (n : nat) : pyfloat :=
  match x with
  | fin q => rnd (q / inject_Z (Z.of_nat n))
  | _ => x
  end.

(** [s.sum()]: an [int64] column adds up in [int64]; a [float64] column
    adds up as floats, NaN skipped. *)
Definition sum (s : list number) : number :=
  match ints s with
  | Some l => Int (wrap64 (Zsum l))
  | None => Float (fsum (map fill0 (map to_float s)))
  end.

(** [s.mean()]: the sum as a [float] divided by the number of values that
    are not NaN, and NaN when there is none. *)
Definition mean (s : list number) : pyfloat :=
  match ints s with
  | Some l =>
      match l with
      | [] => nan
      | _ => fdiv (fsum (map (fun z => rnd (inject_Z z)) l)) (List.length l)
      end
  | None =>
      let xs := map to_float s in
      match List.length (filter (fun x => negb (isnan x)) xs) with
      | O => nan
      | n => fdiv (fsum (map fill0 xs)) n
      end
  end.

End Numeric.

(** [int(x)] of a sum: an [int64] as it is, a [float] truncated towards
    zero. *)
Definition py_int (x : number) : result Z :=
  match x with
  | Int z => Ok z
  | Float (fin q) => Ok (Z.quot (Qnum q) (Zpos (Qden q)))
  | Float nan => Raise (ValueError "cannot convert float NaN to integer")
  | Float (inf _) =>
      Raise (OverflowError "cannot convert float infinity to integer")
  end.

(** [s.min()] and [s.max()]: NaN ([None]) on an empty column. *)
Definition min (s : list Z) : option Z :=
  match s with
  | [] => None
  | x :: s' => Some (fold_right Z.min x s')
  end.

Definition max (s : list Z) : option Z :=
  match s with
  | [] => None
  | x :: s' => Some (fold_right Z.max x s')
  end.

(** [int(x)] of a float that may be NaN. *)
Definition int (x : option Z) : result Z :=
  match x with
  | Some n => Ok n
  | None => Raise (ValueError "cannot convert float NaN to integer")
  end.

End Series.

(** ** Timestamps and the [.dt] accessors *)

Record Timestamp : Type := mkTimestamp {
  ts_year : Z;
  ts_month : Z;
  ts_day : Z;
  ts_hour : Z;
  ts_minute : Z;
  ts_second : Z
}.

(** Days since 1970-01-01 of a date of the proleptic Gregorian calendar. *)
Definition days_from_civil (y m d : Z) : Z :=
  let y' := if m <=? 2 then y - 1 else y in
  let era := y' / 400 in
  let yoe := y' - era * 400 in
  let doy := (153 * (if 2 <? m then m - 3 else m + 9) + 2) / 5 + d - 1 in
  let doe := yoe * 365 + yoe / 4 - yoe / 100 + doy in
  era * 146097 + doe - 719468.

Definition weekdays : list string :=
  ["Monday"; "Tuesday"; "Wednesday"; "Thursday"; "Friday"; "Saturday";
   "Sunday"].

(** [t.dayofweek]: Monday is 0. *)
Definition dt_dayofweek (t : Timestamp) : Z :=
  (days_from_civil (ts_year t) (ts_month t) (ts_day t) + 3) mod 7.

Definition dt_month (t : Timestamp) : Z := ts_month t.
Definition dt_hour (t : Timestamp) : Z := ts_hour t.

Definition dt_day_name (t : Timestamp) : string :=
  nth (Z.to_nat (dt_dayofweek t)) weekdays "".

(** ** Rows and frames *)

(** One line of a city's CSV file, as [read_csv] hands it over.  A blank
    cell is NaN: [None], and [Float nan] in a numeric column. *)
Record RawRow : Type := mkRawRow {
  raw_Start_Time : option string;
  raw_Trip_Duration : number;
  raw_Start_Station : option string;
  raw_End_Station : option string;
  raw_User_Type : option string;
  raw_Gender : option string;
  raw_Birth_Year : option Z
}.

(** What [read_csv] returns: the lines, and whether the file has the
    columns ['Gender'] and ['Birth Year'] at all. *)
Record RawFrame : Type := mkRawFrame {
  raw_rows : list RawRow;
  raw_demographics : bool
}.

(** One row of the frame [load_data] returns: the columns of the file,
    with ['Start Time'] parsed (NaT, [None], where the cell was blank), and
    the three derived columns, which are NaN where the time is NaT. *)
Record Row : Type := mkRow {
  Start_Time : option Timestamp;
  Trip_Duration : number;
  Start_Station : option string;
  End_Station : option string;
  User_Type : option string;
  Gender : option string;
  Birth_Year : option Z;
  month : option Z;
  day_of_week : option string;
  hour : option Z
}.

(** A frame: its rows in order, whether the columns ['Gender'] and
    ['Birth Year'] exist, and the column ['Trip'] once it was assigned. *)
Record DataFrame : Type := mkDataFrame {
  rows : list Row;
  demographics : bool;
  Trip : option (list (option string))
}.

(** Keeping the entries at which a boolean mask is [True]. *)
Definition select {A : Type} (mask : list bool) (l : list A) : list A :=
  map snd (filter fst (combine mask l)).

(** [df[mask]]: a new frame with the selected rows and the same columns. *)
Definition getitem_mask (df : DataFrame) (mask : list bool) : DataFrame :=
  {| rows := select mask (rows df);
     demographics := demographics df;
     Trip := option_map (select mask) (Trip df) |}.

(** ** Code acting on the frame it was handed *)

Definition Frame (A : Type) : Type := DataFrame -> result A * DataFrame.

Definition ret {A} (a : A) : Frame A := fun df => (Ok a, df).

Definition lift {A} (r : result A) : Frame A := fun df => (r, df).

Definition bind {A B} (m : Frame A) (k : A -> Frame B) : Frame B :=
  fun df =>
    match m df with
    | (Ok a, df') => k a df'
    | (Raise e, df') => (Raise e, df')
    end.

Declare Scope frame_scope.
Delimit Scope frame_scope with frame.
Notation "x <- m ;; k" := (bind m (fun x => k))
  (at level 61, m at next level, right associativity) : frame_scope.
Notation "m ;; k" := (bind m (fun _ => k))
  (at level 61, right associativity) : frame_scope.

(** [df[name]] for a column every frame has. *)
Definition column {A} (f : Row -> A) : Frame (list A) :=
  fun df => (Ok (map f (rows df)), df).

(** [df[name]] for ['Gender'] and ['Birth Year']: [KeyError] on a frame
    without the column. *)
Definition optional_column {A} (name : string) (f : Row -> option A)
  : Frame (list (option A)) :=
  fun df =>
    if demographics df then (Ok (map f (rows df)), df)
    else (Raise (KeyError name), df).

(** [df['Trip']] *)
Definition column_Trip : Frame (list (option string)) :=
  fun df =>
    match Trip df with
    | Some c => (Ok c, df)
    | None => (Raise (KeyError "Trip"), df)
    end.

(** [df['Trip'] = c]: the frame gains the column, or has it replaced. *)
Definition setitem_Trip (c : list (option string)) : Frame unit :=
  fun df =>
    (Ok tt, {| rows := rows df; demographics := demographics df;
               Trip := Some c |}).

(** [x + " to " + y] on one row: NaN where either is. *)
Definition trip_of (x y : option string) : option string :=
  match x, y with
  | Some a, Some b => Some (a ++ " to " ++ b)%string
  | _, _ => None
  end.

(** [a + " to " + b], element by element. *)
Fixpoint trip_strings (a b : list (option string)) : list (option string) :=
  match a, b with
  | x :: a', y :: b' => trip_of x y :: trip_strings a' b'
  | _, _ => []
  end.

(** ** The aggregators of bikeshare.py *)

Local Open Scope frame_scope.

Definition most_common_hour : Frame Z :=
  s <- column hour ;; lift (Series.item0 (Series.mode (Series.dropna s))).

Definition user_types_count : Frame (list (string * nat)) :=
  s <- column User_Type ;; ret (Series.value_counts (Series.dropna s)).

Definition gender_count : Frame (list (string * nat)) :=
  s <- optional_column "Gender" Gender ;;
  ret (Series.value_counts (Series.dropna s)).

Definition birth_year_stats : Frame (Z * Z * Z) :=
  s <- optional_column "Birth Year" Birth_Year ;;
  earliest_year <- lift (Series.int (Series.min (Series.dropna s))) ;;
  s <- optional_column "Birth Year" Birth_Year ;;
  most_recent_year <- lift (Series.int (Series.max (Series.dropna s))) ;;
  s <- optional_column "Birth Year" Birth_Year ;;
  most_common_year <- lift (Series.item0 (Series.mode (Series.dropna s))) ;;
  ret (earliest_year, most_recent_year, most_common_year).

Definition most_common_month : Frame Z :=
  s <- column month ;; lift (Series.item0 (Series.mode (Series.dropna s))).

Definition most_common_day : Frame string :=
  s <- column day_of_week ;;
  lift (Series.item0 (Series.mode (Series.dropna s))).

Section Durations.
Context {F : Float64}.

Definition total_travel_time : Frame Z :=
  s <- column Trip_Duration ;; lift (Series.py_int (Series.sum s)).

Definition average_travel_time : Frame pyfloat :=
  s <- column Trip_Duration ;; ret (Series.mean s).

End Durations.

Definition most_common_stations : Frame (string * string * string) :=
  s <- column Start_Station ;;
  common_start_station <- lift (Series.item0 (Series.mode (Series.dropna s))) ;;
  e <- column End_Station ;;
  common_end_station <- lift (Series.item0 (Series.mode (Series.dropna e))) ;;
  s <- column Start_Station ;;
  e <- column End_Station ;;
  setitem_Trip (trip_strings s e) ;;
  t <- column_Trip ;;
  common_trip <- lift (Series.item0 (Series.mode (Series.dropna t))) ;;
  ret (common_start_station, common_end_station, common_trip).

Local Close Scope frame_scope.

(** ** Loading and filtering *)

Local Open Scope result_scope.

(** The dictionary [CITY_DATA] of [load_data]. *)
Definition CITY_DATA : list (string * string) :=
  [("chicago", "chicago.csv");
   ("new york city", "new_york_city.csv");
   ("washington", "washington.csv")].

(** [d[key]] on a dictionary with string keys. *)
Fixpoint dict_getitem (d : list (string * string)) (key : string)
  : result string :=
  match d with
  | [] => Raise (KeyError key)
  | (k, v) :: d' => if String.eqb k key then Ok v else dict_getitem d' key
  end.

(** [l.index(x)] *)
Fixpoint index (x : string) (l : list string) : result nat :=
  match l with
  | [] => Raise (ValueError ("'" ++ x ++ "' is not in list"))
  | y :: l' => if String.eqb y x then Ok O else i <- index x l' ;; Ok (S i)
  end.

(** Running a fallible function over a list, first failure wins. *)
Fixpoint traverse {A B} (f : A -> result B) (l : list A) : result (list B) :=
  match l with
  | [] => Ok []
  | x :: l' => y <- f x ;; ys <- traverse f l' ;; Ok (y :: ys)
  end.

Definition months : list string :=
  ["january"; "february"; "march"; "april"; "may"; "june"].

Definition days : list string :=
  ["monday"; "tuesday"; "wednesday"; "thursday"; "friday"; "saturday";
   "sunday"].

Definition invalid_month : exn :=
  ValueError "Invalid month. Choose one of January–June or 'all'.".

Definition invalid_day : exn :=
  ValueError "Invalid day. Choose a day Monday–Sunday or 'all'.".

Section Filtering.
Context {U : Str.Unicode}.

(** Lines 51-58 of [load_data_filtered]: the month filter on [df]. *)
Definition filter_month (df : DataFrame) (month_arg : option string)
  : result DataFrame :=
  match month_arg with
  | None => Ok df
  | Some mo =>
      if Str.truthy mo && negb (String.eqb (Str.lower mo) "all") then
        let m := Str.lower (Str.strip mo) in
        if negb (Str.mem m months) then Raise invalid_month
        else
          i <- index m months ;;
          let month_number := Z.of_nat i + 1 in
          Ok (getitem_mask df
                (map (fun r => Series.eq (month r) month_number) (rows df)))
      else Ok df
  end.

(** Lines 60-66 of [load_data_filtered]: the weekday filter on [df]. *)
Definition filter_day (df : DataFrame) (day_arg : option string)
  : result DataFrame :=
  match day_arg with
  | None => Ok df
  | Some dy =>
      if Str.truthy dy && negb (String.eqb (Str.lower dy) "all") then
        let d := Str.lower (Str.strip dy) in
        if negb (Str.mem d days) then Raise invalid_day
        else
          Ok (getitem_mask df
                (map (fun r =>
                        Series.eq (option_map Str.lower (day_of_week r)) d)
                     (rows df)))
      else Ok df
  end.

(** Lines 51-68 of [load_data_filtered]: both filters, on a frame that is
    already loaded. *)
Definition apply_filters (df : DataFrame) (month_arg day_arg : option string)
  : result DataFrame :=
  df <- filter_month df month_arg ;;
  filter_day df day_arg.

Section Loading.

(** [pd.read_csv] on a path, and [pd.to_datetime] on the column
    ['Start Time'], which it parses as a whole: it raises when a cell
    cannot be read as a time, and answers NaT for a blank one.  Both belong
    to pandas and to the files on disk.  The column [to_datetime] returns
    has one entry for each of the column it was given. *)
Variable read_csv : string -> result RawFrame.
Variable to_datetime :
  list (option string) -> result (list (option Timestamp)).

(** The row of the loaded frame for one line of the file and its parsed
    time: lines 28-31 of [load_data], which work column by column, seen
    from one row. *)
Definition derive (line : RawRow) (t : option Timestamp) : Row :=
  {| Start_Time := t;
     Trip_Duration := raw_Trip_Duration line;
     Start_Station := raw_Start_Station line;
     End_Station := raw_End_Station line;
     User_Type := raw_User_Type line;
     Gender := raw_Gender line;
     Birth_Year := raw_Birth_Year line;
     month := option_map dt_month t;
     day_of_week := option_map dt_day_name t;
     hour := option_map dt_hour t |}.

Definition load_data (city : string) : result DataFrame :=
  path <- dict_getitem CITY_DATA (Str.lower city) ;;
  raw <- read_csv path ;;
  times <- to_datetime (map raw_Start_Time (raw_rows raw)) ;;
  Ok {| rows := map (fun p => derive (fst p) (snd p))
                    (combine (raw_rows raw) times);
        demographics := raw_demographics raw;
        Trip := None |}.

Definition load_data_filtered (city : string) (month_arg day_arg : option string)
  : result DataFrame :=
  df <- load_data city ;;
  apply_filters df month_arg day_arg.

End Loading.

End Filtering.

Local Close Scope result_scope.

(** ** One round of [main], after the three prompts *)

(** The aggregators [main] can call. *)
Inductive call : Type :=
| Call_most_common_month
| Call_most_common_day
| Call_most_common_hour
| Call_most_common_stations
| Call_total_travel_time
| Call_average_travel_time
| Call_user_types_count
| Call_gender_count
| Call_birth_year_stats.

(** What [main] holds while it computes: the frame, and the calls made. *)
Record World : Type := mkWorld {
  frame : DataFrame;
  trace : list call
}.

Definition Main (A : Type) : Type := World -> result A * World.

Definition mret {A} (a : A) : Main A := fun w => (Ok a, w).

Definition mbind {A B} (m : Main A) (k : A -> Main B) : Main B :=
  fun w =>
    match m w with
    | (Ok a, w') => k a w'
    | (Raise e, w') => (Raise e, w')
    end.

(** Calling an aggregator on [df], the frame [main] holds. *)
Definition invoke {A} (c : call) (f : Frame A) : Main A :=
  fun w =>
    let (r, df') := f (frame w) in
    (r, {| frame := df'; trace := trace w ++ [c] |}).

Declare Scope main_scope.
Delimit Scope main_scope with main.
Notation "x <- m ;; k" := (mbind m (fun x => k))
  (at level 61, m at next level, right associativity) : main_scope.

(** Line 293 of [main]: the cities for which [main] computes the
    statistics of ['Gender'] and ['Birth Year']. *)
Definition supports_demographics (city : string) : bool :=
  Str.mem city ["chicago"; "new york city"].

(** The values [main] prints. *)
Record Report : Type := mkReport {
  report_month : Z;
  report_day : string;
  report_hour : Z;
  report_stations : string * string * string;
  report_total : Z;
  report_average : pyfloat;
  report_user_types : list (string * nat);
  report_demographics : option (list (string * nat) * (Z * Z * Z))
}.

(** How one round of [main] ends. *)
Inductive outcome : Type :=
| InputError (e : exn)
| Uncaught (e : exn) (w : option World)
| Reported (r : Report) (w : World).

Definition calls_of (o : outcome) : list call :=
  match o with
  | InputError _ => []
  | Uncaught _ None => []
  | Uncaught _ (Some w) => trace w
  | Reported _ w => trace w
  end.

Section Main.
Context {U : Str.Unicode} {F : Float64}.

Local Open Scope main_scope.

(** Lines 277-300 of [main]. *)
Definition statistics (city : string) : Main Report :=
  mo <- invoke Call_most_common_month most_common_month ;;
  dy <- invoke Call_most_common_day most_common_day ;;
  hr <- invoke Call_most_common_hour most_common_hour ;;
  st <- invoke Call_most_common_stations most_common_stations ;;
  tot <- invoke Call_total_travel_time total_travel_time ;;
  avg <- invoke Call_average_travel_time average_travel_time ;;
  user_types <- invoke Call_user_types_count user_types_count ;;
  demo <- (if supports_demographics city then
             gender <- invoke Call_gender_count gender_count ;;
             years <- invoke Call_birth_year_stats birth_year_stats ;;
             mret (Some (gender, years))
           else mret None) ;;
  mret {| report_month := mo; report_day := dy; report_hour := hr;
          report_stations := st; report_total := tot;
          report_average := avg; report_user_types := user_types;
          report_demographics := demo |}.

Local Close Scope main_scope.

Variable read_csv : string -> result RawFrame.
Variable to_datetime :
  list (option string) -> result (list (option Timestamp)).

(** Lines 253-273 of [main]: which loader is called with which arguments.
    [month_in] and [day_in] are the answers to the prompts, stripped and
    lower-cased. *)
Definition main_load (city month_in day_in : string) : result DataFrame :=
  if negb (String.eqb month_in "all") && negb (String.eqb day_in "all") then
    load_data_filtered read_csv to_datetime city (Some month_in) (Some day_in)
  else if negb (String.eqb month_in "all") then
    load_data_filtered read_csv to_datetime city (Some month_in) None
  else if negb (String.eqb day_in "all") then
    load_data_filtered read_csv to_datetime city None (Some day_in)
  else load_data read_csv to_datetime city.

(** Lines 253-300 of [main].  The three calls of [load_data_filtered]
    stand in a [try] whose [except ValueError] starts the round over; the
    call of [load_data], when both answers are "all", stands in none, and
    nothing catches what an aggregator raises. *)
Definition main_round (city month_in day_in : string) : outcome :=
  match main_load city month_in day_in with
  | Raise e =>
      if is_ValueError e
         && negb (String.eqb month_in "all" && String.eqb day_in "all")
      then InputError e
      else Uncaught e None
  | Ok df =>
      match statistics city {| frame := df; trace := [] |} with
      | (Ok r, w) => Reported r w
      | (Raise e, w) => Uncaught e (Some w)
      end
  end.

End Main.

(** ** What the specification calls a mode *)

Section Modes.
Context {A : Type} `{Dtype A}.

(** [v] occurs in the column and no value occurs more often. *)
Definition highest_count (v : A) (s : list A) : Prop :=
  In v s /\ forall x, (Series.count x s <= Series.count v s)%nat.

(** [v] comes first in sort order among the values that occur as often. *)
Definition smallest_tied (v : A) (s : list A) : Prop :=
  forall x, Series.count x s = Series.count v s -> leb v x = true.

(** The mode as the specification words it: of the values with the highest
    count, the one met first in source order. *)
Definition first_seen_mode (s : list A) : option A :=
  hd_error
    (filter (fun x => Nat.eqb (Series.count x s) (Series.max_count s))
            (Series.unique s)).

End Modes.

(** What [s.mode()[0]] turns out to be: a value of the highest count that
    is the smallest of the values of that count. *)
Definition smallest_mode {A : Type} `{Dtype A} (v : A) (s : list A) : Prop :=
  highest_count v s /\ smallest_tied v s.

(** The value [most_common_stations] builds for one row: the string, or
    NaN when a station is blank. *)
Definition trip_string (r : Row) : option string :=
  trip_of (Start_Station r) (End_Station r).

(** The frame after [df['Trip'] = ...] of [most_common_stations]. *)
Definition with_Trip (df : DataFrame) : DataFrame :=
  {| rows := rows df; demographics := demographics df;
     Trip := Some (map trip_string (rows df)) |}.

(** [df[df.apply(p)]]: the frame restricted to the rows where [p] holds,
    as both filters of [load_data_filtered] build it. *)
Definition restrict (df : DataFrame) (p : Row -> bool) : DataFrame :=
  getitem_mask df (map p (rows df)).

(** The values of a column of a frame: its cells in row order, the blank
    ones left out. *)
Definition values {A} (f : Row -> option A) (df : DataFrame) : list A :=
  Series.dropna (map f (rows df)).

(** The report of a round on [df], given what the first five aggregators
    returned and the demographics. *)
Definition report_of {F : Float64} (df : DataFrame) (mo : Z) (dy : string)
  (hr : Z) (st : string * string * string) (tot : Z)
  (demo : option (list (string * nat) * (Z * Z * Z))) : Report :=
  {| report_month := mo; report_day := dy; report_hour := hr;
     report_stations := st; report_total := tot;
     report_average := Series.mean (map Trip_Duration (rows df));
     report_user_types := Series.value_counts (values User_Type df);
     report_demographics := demo |}.

(** A column ['Trip'], when there is one, has no more entries than the
    frame has rows. *)
Definition trip_fits (df : DataFrame) : Prop :=
  match Trip df with
  | None => True
  | Some t => (List.length t <= List.length (rows df))%nat
  end.

(** ** Frames to run the code on *)

Definition midnight : Timestamp := mkTimestamp 2017 1 2 0 0 0.

(** A row with the given weekday, stations and duration, in January. *)
Definition trip (dy s e : string) (dur : Z) : Row :=
  {| Start_Time := Some midnight; Trip_Duration := Int dur;
     Start_Station := Some s; End_Station := Some e;
     User_Type := Some "Subscriber"; Gender := None; Birth_Year := None;
     month := Some 1; day_of_week := Some dy; hour := Some 0 |}.

(** A frame as [load_data] returns it for a city without demographics. *)
Definition frame_of (rs : list Row) : DataFrame :=
  {| rows := rs; demographics := false; Trip := None |}.

(** Two trips, the Tuesday one first. *)
Definition tuesday_first : DataFrame :=
  frame_of [trip "Tuesday" "X" "Y" 60; trip "Monday" "X" "Y" 60].

(** Five Mondays and five Tuesdays, a Monday first. *)
Definition monday_tuesday : DataFrame :=
  frame_of
    [trip "Monday" "X" "Y" 60; trip "Tuesday" "X" "Y" 60;
     trip "Tuesday" "X" "Y" 60; trip "Monday" "X" "Y" 60;
     trip "Tuesday" "X" "Y" 60; trip "Tuesday" "X" "Y" 60;
     trip "Monday" "X" "Y" 60; trip "Monday" "X" "Y" 60;
     trip "Tuesday" "X" "Y" 60; trip "Monday" "X" "Y" 60].

(** No trips at all. *)
Definition empty_view : DataFrame := frame_of [].

(** Three trips of 60, 120 and 180 seconds. *)
Definition three_durations : DataFrame :=
  frame_of [trip "Monday" "X" "Y" 60; trip "Monday" "X" "Y" 120;
            trip "Monday" "X" "Y" 180].

(** Two trips of 2^62 seconds each. *)
Definition two_long_trips : DataFrame :=
  frame_of [trip "Monday" "X" "Y" (2 ^ 62); trip "Monday" "X" "Y" (2 ^ 62)].

(** Station "X" starts three trips and station "Y" ends three, but no trip
    goes from "X" to "Y"; the trip from "M" to "N" is made twice. *)
Definition diverging_stations : DataFrame :=
  frame_of [trip "Monday" "X" "P" 60; trip "Monday" "X" "Q" 60;
            trip "Monday" "X" "R" 60; trip "Monday" "Z" "Y" 60;
            trip "Monday" "W" "Y" 60; trip "Monday" "V" "Y" 60;
            trip "Monday" "M" "N" 60; trip "Monday" "M" "N" 60].

(** Two trips made once each, the one from "B" to "C" first. *)
Definition two_trips : DataFrame :=
  frame_of [trip "Monday" "B" "C" 60; trip "Monday" "A" "B" 60].

(** The same trip in another month. *)
Definition in_month (n : Z) (r : Row) : Row :=
  {| Start_Time := Start_Time r; Trip_Duration := Trip_Duration r;
     Start_Station := Start_Station r; End_Station := End_Station r;
     User_Type := User_Type r; Gender := Gender r;
     Birth_Year := Birth_Year r;
     month := Some n; day_of_week := day_of_week r; hour := hour r |}.

(** Trips of January and February, on Mondays and Tuesdays, one of them
    twice. *)
Definition two_months : DataFrame :=
  frame_of [in_month 2 (trip "Monday" "A" "B" 10);
            trip "Monday" "C" "D" 20;
            trip "Tuesday" "E" "F" 30;
            trip "Monday" "C" "D" 20;
            in_month 2 (trip "Tuesday" "G" "H" 40);
            trip "Monday" "I" "J" 50].

(** The calls [main] makes for every city. *)
Definition common_calls : list call :=
  [Call_most_common_month; Call_most_common_day; Call_most_common_hour;
   Call_most_common_stations; Call_total_travel_time;
   Call_average_travel_time; Call_user_types_count].

(** A computation of [main] that makes no call outside [cs]. *)
Definition calls_within {A} (cs : list call) (m : Main A) : Prop :=
  forall w c, In c (trace (snd (m w))) -> In c (trace w) \/ In c cs.

(** A disk on which no file can be read. *)
Definition no_files (path : string) : result RawFrame :=
  Raise (FileNotFoundError path).

(** The two lines of the files below. *)
Definition two_lines : list RawRow :=
  [mkRawRow (Some "2017-01-02 09:07:57") (Int 300) (Some "A") (Some "B")
            (Some "Subscriber") None None;
   mkRawRow (Some "2017-01-03 10:00:00") (Int 500) (Some "A") (Some "C")
            (Some "Customer") None None].

(** A disk with one file, washington.csv, of two lines and without the
    columns ['Gender'] and ['Birth Year']. *)
Definition washington_only (path : string) : result RawFrame :=
  if String.eqb path "washington.csv" then
    Ok {| raw_rows := two_lines; raw_demographics := false |}
  else Raise (FileNotFoundError path).

(** A disk with one file, chicago.csv, of the same two lines: the file of
    a city [main] computes demographics for, without the two columns. *)
Definition chicago_without_columns (path : string) : result RawFrame :=
  if String.eqb path "chicago.csv" then
    Ok {| raw_rows := two_lines; raw_demographics := false |}
  else Raise (FileNotFoundError path).

(** A disk with one file, washington.csv, that has the two columns. *)
Definition washington_with_columns (path : string) : result RawFrame :=
  if String.eqb path "washington.csv" then
    Ok {| raw_rows := two_lines; raw_demographics := true |}
  else Raise (FileNotFoundError path).

(** Reading one cell as a time, for the two times of those files. *)
Definition parse_cell (text : string) : result Timestamp :=
  if String.eqb text "2017-01-02 09:07:57" then Ok (mkTimestamp 2017 1 2 9 7 57)
  else if String.eqb text "2017-01-03 10:00:00"
       then Ok (mkTimestamp 2017 1 3 10 0 0)
       else Raise (ParserError text).

(** A [to_datetime] that knows those two times: NaT for a blank cell, and
    the first cell it cannot read makes it raise. *)
Definition parse_two (column : list (option string))
  : result (list (option Timestamp)) :=
  traverse (fun cell =>
              match cell with
              | None => Ok None
              | Some text => rbind (parse_cell text) (fun t => Ok (Some t))
              end)
           column.

(** ** The terminal: prompts and the raw-data display *)

(** How one of the validation loops of [main] ends: with the first accepted
    answer, after so many refused ones, and the lines not yet read; or at
    the end of the input ([EOFError]). *)
Inductive asked : Type :=
| Answered (value : string) (refused : nat) (rest : list string)
| Eof (refused : nat).

(** The three tests of the validation loops. *)
Definition valid_city (city : string) : bool :=
  Str.mem city ["chicago"; "new york city"; "washington"].

Definition valid_month (month_in : string) : bool :=
  negb (negb (String.eqb month_in "all") && negb (Str.mem month_in months)).

Definition valid_day (day_in : string) : bool :=
  negb (negb (String.eqb day_in "all") && negb (Str.mem day_in days)).

(** [df.iloc[start:stop]]: the rows from position [start] up to, not
    including, [stop]; positions past the end select nothing. *)
Definition iloc (df : DataFrame) (start stop : nat) : DataFrame :=
  {| rows := firstn (stop - start) (skipn start (rows df));
     demographics := demographics df;
     Trip := option_map (fun t => firstn (stop - start) (skipn start t))
                        (Trip df) |}.

(** How a run of [main] ends. *)
Inductive ending : Type :=
| Exited
| Eof_reached
| Crashed (e : exn)
| Out_of_fuel.

Section Terminal.
Context {U : Str.Unicode}.

(** [input(...).strip().lower()] of a line that was typed. *)
Definition answer (line : string) : string := Str.lower (Str.strip line).

(** Lines 222-229, 232-240 and 243-251 of [main]: read a line, strip and
    lower-case it, take it if [accept] holds, else print the message and
    read again. *)
Fixpoint ask (accept : string -> bool) (stdin : list string) : asked :=
  match stdin with
  | [] => Eof 0
  | line :: rest =>
      if accept (answer line) then Answered (answer line) 0 rest
      else
        match ask accept rest with
        | Answered v n rest' => Answered v (S n) rest'
        | Eof n => Eof (S n)
        end
  end.

(** [display_raw_data], from position [start] on: the frames it prints and
    the lines it leaves unread, [None] when the input ends first. *)
Fixpoint display_raw_data_from (df : DataFrame) (start : nat)
  (stdin : list string) : list DataFrame * option (list string) :=
  match stdin with
  | [] => ([], None)
  | line :: rest =>
      if negb (String.eqb (answer line) "yes") then ([], Some rest)
      else
        let (printed, left) := display_raw_data_from df (start + 5) rest in
        (iloc df start (start + 5) :: printed, left)
  end.

Definition display_raw_data (df : DataFrame) (stdin : list string)
  : list DataFrame * option (list string) :=
  display_raw_data_from df 0 stdin.

Section Session.
Context {F : Float64}.

Variable read_csv : string -> result RawFrame.
Variable to_datetime :
  list (option string) -> result (list (option Timestamp)).

(** [main], on the lines typed: the rounds it went through, each with the
    frames the raw-data display printed, and how it ended.  A round reads
    at least three lines, so [fuel] above the number of lines is never used
    up. *)
Fixpoint main (fuel : nat) (stdin : list string)
  : list (outcome * list DataFrame) * ending :=
  match fuel with
  | O => ([], Out_of_fuel)
  | S fuel' =>
      match ask valid_city stdin with
      | Eof _ => ([], Eof_reached)
      | Answered city _ stdin1 =>
          match ask valid_month stdin1 with
          | Eof _ => ([], Eof_reached)
          | Answered month_in _ stdin2 =>
              match ask valid_day stdin2 with
              | Eof _ => ([], Eof_reached)
              | Answered day_in _ stdin3 =>
                  match main_round read_csv to_datetime city month_in day_in
                  with
                  | InputError e =>
                      let (later, e') := main fuel' stdin3 in
                      ((InputError e, []) :: later, e')
                  | Uncaught e w => ([(Uncaught e w, [])], Crashed e)
                  | Reported r w =>
                      match display_raw_data (frame w) stdin3 with
                      | (printed, None) =>
                          ([(Reported r w, printed)], Eof_reached)
                      | (printed, Some []) =>
                          ([(Reported r w, printed)], Eof_reached)
                      | (printed, Some (line :: stdin4)) =>
                          if negb (String.eqb (answer line) "yes")
                          then ([(Reported r w, printed)], Exited)
                          else
                            let (later, e') := main fuel' stdin4 in
                            ((Reported r w, printed) :: later, e')
                      end
                  end
              end
          end
      end
  end.

End Session.

(** ** Notions the further properties are stated with *)

(** Whether a filter argument is refused by the filter for the names
    [names]: it is there, it is not empty, it does not lower-case to "all",
    and stripped and lower-cased it is none of the names. *)
Definition refused (names : list string) (arg : option string) : bool :=
  match arg with
  | None => false
  | Some s =>
      Str.truthy s && negb (String.eqb (Str.lower s) "all") &&
      negb (Str.mem (Str.lower (Str.strip s)) names)
  end.

(** How many of the first lines typed answer "yes", before one that does
    not. *)
Fixpoint leading_yes (stdin : list string) : nat :=
  match stdin with
  | [] => 0
  | line :: rest =>
      if String.eqb (answer line) "yes" then S (leading_yes rest) else 0
  end.

End Terminal.

(** The sum of the counts of a table of counts. *)
Definition total_count {A} (t : list (A * nat)) : nat :=
  fold_right Nat.add 0%nat (map snd t).

(** A table of counts in descending order of count. *)
Definition descending {A} (t : list (A * nat)) : Prop :=
  Sorted (fun p q => (snd q <= snd p)%nat) t.

(** A frame of a city with demographics: three riders, one of them with
    no gender and no birth year on record. *)
Definition rider (g : option string) (b : option Z) (r : Row) : Row :=
  {| Start_Time := Start_Time r; Trip_Duration := Trip_Duration r;
     Start_Station := Start_Station r; End_Station := End_Station r;
     User_Type := User_Type r; Gender := g; Birth_Year := b;
     month := month r; day_of_week := day_of_week r; hour := hour r |}.

Definition three_riders : DataFrame :=
  {| rows := [rider (Some "Male") (Some 1990) (trip "Monday" "A" "B" 100);
              rider None None (trip "Tuesday" "B" "C" 200);
              rider (Some "Female") (Some 1985) (trip "Monday" "A" "C" 300)];
     demographics := true;
     Trip := None |}.

(** The same riders in another order. *)
Definition three_riders_reordered : DataFrame :=
  {| rows := [rider None None (trip "Tuesday" "B" "C" 200);
              rider (Some "Male") (Some 1990) (trip "Monday" "A" "B" 100);
              rider (Some "Female") (Some 1985) (trip "Monday" "A" "C" 300)];
     demographics := true;
     Trip := None |}.

(** The page of five rows that starts at row [start]. *)
Definition page (df : DataFrame) (start : nat) : DataFrame :=
  iloc df start (start + 5).

(** U+00A0, a blank that is not ASCII. *)
Definition no_break_space : string := Str.of_bytes [194; 160]%N.

(** ** Parameters to run examples with *)

(** A case table that knows one character beyond ASCII: the Kelvin sign
    U+212A, whose lower-case form is "k". *)
Definition kelvin_sign : string := Str.of_bytes [226; 132; 170]%N.

Definition tolower_kelvin (c : string) : string :=
  if String.eqb c kelvin_sign then "k" else c.

(** Arithmetic on the rationals themselves, in lowest terms; it is what
    binary64 does as long as every value met is a [float]. *)
Definition exact_rnd (q : Q) : pyfloat := fin (Qred q).

Definition exact_add (x y : pyfloat) : pyfloat :=
  match x, y with
  | nan, _ | _, nan => nan
  | inf a, inf b => if Bool.eqb a b then inf a else nan
  | inf a, fin _ | fin _, inf a => inf a
  | fin p, fin q => fin (Qred (p + q))
  end.

Definition exact_fsum (l : list pyfloat) : pyfloat :=
  fold_right exact_add (fin 0) l.

(** * Properties *)

(** ** The column types obey the laws *)

#[export] Instance DtypeLaws_Z : DtypeLaws Z.
Proof.
  split; cbn; intros.
  - apply Z.eqb_eq.
  - lia.
  - lia.
  - lia.
Qed.

Lemma ascii_compare_trans (a b c : ascii) (o : comparison) :
  Ascii.compare a b = o -> Ascii.compare b c = o -> Ascii.compare a c = o.
Proof.
  unfold Ascii.compare. destruct o; intros H1 H2.
  - apply N.compare_eq_iff in H1, H2. apply N.compare_eq_iff. congruence.
  - rewrite N.compare_lt_iff in *. lia.
  - rewrite N.compare_gt_iff in *. lia.
Qed.

Lemma ascii_compare_refl (a : ascii) : Ascii.compare a a = Eq.
Proof. unfold Ascii.compare. apply N.compare_refl. Qed.

Lemma string_compare_lt_trans (s1 : string) :
  forall s2 s3,
    String.compare s1 s2 = Lt -> String.compare s2 s3 = Lt ->
    String.compare s1 s3 = Lt.
Proof.
  induction s1 as [|a s1 IH]; intros [|b s2] [|c s3]; simpl; try congruence.
  destruct (Ascii.compare a b) eqn:Hab; try congruence;
    destruct (Ascii.compare b c) eqn:Hbc; try congruence; intros H1 H2.
  - apply Ascii.compare_eq_iff in Hab, Hbc. subst.
    rewrite ascii_compare_refl. eauto.
  - apply Ascii.compare_eq_iff in Hab. subst. now rewrite Hbc.
  - apply Ascii.compare_eq_iff in Hbc. subst. now rewrite Hab.
  - now rewrite (ascii_compare_trans a b c Lt Hab Hbc).
Qed.

Lemma string_leb_trans (x y z : string) :
  String.leb x y = true -> String.leb y z = true -> String.leb x z = true.
Proof.
  unfold String.leb.
  destruct (String.compare x y) eqn:Hxy; try discriminate;
    destruct (String.compare y z) eqn:Hyz; try discriminate; intros _ _.
  - apply String.compare_eq_iff in Hxy. subst y. now rewrite Hyz.
  - apply String.compare_eq_iff in Hxy. subst y. now rewrite Hyz.
  - apply String.compare_eq_iff in Hyz. subst z. now rewrite Hxy.
  - now rewrite (string_compare_lt_trans x y z Hxy Hyz).
Qed.

#[export] Instance DtypeLaws_string : DtypeLaws string.
Proof.
  split; cbn; intros.
  - apply String.eqb_eq.
  - apply String.leb_total.
  - eapply string_leb_trans; eassumption.
  - now apply String.leb_antisym.
Qed.

(** ** The parameters of the examples obey their laws *)

Lemma tolower_kelvin_blank (c : string) :
  Str.isspace c = true -> tolower_kelvin c = c.
Proof.
  unfold tolower_kelvin.
  destruct (String.eqb c kelvin_sign) eqn:E; [|reflexivity].
  apply String.eqb_eq in E. subst c. discriminate.
Qed.

(** The case table of the examples.  What it says of a character beyond
    ASCII other than the Kelvin sign is of no concern: no example holds
    one. *)
#[export] Instance Unicode_kelvin : Str.Unicode :=
  {| Str.tolower := tolower_kelvin;
     Str.final_sigma := fun _ _ => false;
     Str.tolower_blank := tolower_kelvin_blank |}.

Lemma exact_rnd_proper (p q : Q) : p == q -> exact_rnd p = exact_rnd q.
Proof. intros E. unfold exact_rnd. f_equal. now apply Qred_complete. Qed.

Lemma Qred_inject_Z (z : Z) : Qred (inject_Z z) = inject_Z z.
Proof. apply Qcanon.Qred_identity. simpl. apply Z.gcd_1_r. Qed.

Lemma exact_rnd_integer (z : Z) :
  Z.abs z <= 2 ^ 53 -> exact_rnd (inject_Z z) = fin (inject_Z z).
Proof. intros _. unfold exact_rnd. now rewrite Qred_inject_Z. Qed.

Lemma exact_fsum_integers (l : list Z) :
  fold_right Z.add 0 (map Z.abs l) <= 2 ^ 53 ->
  exact_fsum (map (fun z => fin (inject_Z z)) l)
  = fin (inject_Z (fold_right Z.add 0 l)).
Proof.
  intros _. induction l as [|z l IH]; [reflexivity|].
  unfold exact_fsum in *. cbn [map fold_right]. rewrite IH.
  cbn [exact_add]. f_equal.
  rewrite <- inject_Z_plus. apply Qred_inject_Z.
Qed.

(** The arithmetic of the examples. *)
#[export] Instance Float64_exact : Float64 :=
  {| rnd := exact_rnd;
     fsum := exact_fsum;
     rnd_proper := exact_rnd_proper;
     rnd_integer := exact_rnd_integer;
     fsum_integers := exact_fsum_integers |}.

(** ** Counting, sorting and the mode of a column *)

Section SeriesFacts.
Context {A : Type} `{DtypeLaws A}.

Lemma eqb_refl (x : A) : eqb x x = true.
Proof. now apply eqb_eq. Qed.

Lemma eqb_neq (x y : A) : eqb x y = false <-> x <> y.
Proof.
  split.
  - intros E Heq. apply eqb_eq in Heq. congruence.
  - intros N. destruct (eqb x y) eqn:E; [apply eqb_eq in E; contradiction|easy].
Qed.

Lemma leb_refl (x : A) : leb x x = true.
Proof. destruct (leb_total x x); assumption. Qed.

Lemma count_pos (x : A) (s : list A) : In x s -> (1 <= Series.count x s)%nat.
Proof.
  induction s as [|y s IH]; simpl; [easy|].
  intros [->|Hin].
  - rewrite eqb_refl. lia.
  - specialize (IH Hin). lia.
Qed.

Lemma count_zero (x : A) (s : list A) : ~ In x s -> Series.count x s = 0%nat.
Proof.
  induction s as [|y s IH]; simpl; [easy|].
  intros Hn. destruct (eqb x y) eqn:E.
  - apply eqb_eq in E. subst. exfalso. apply Hn. now left.
  - rewrite IH; [reflexivity|]. intros Hin. apply Hn. now right.
Qed.

Lemma in_dec_dtype (x : A) (s : list A) : In x s \/ ~ In x s.
Proof.
  induction s as [|y s [IH|IH]]; simpl.
  - now right.
  - left. now right.
  - destruct (eqb y x) eqn:E.
    + apply eqb_eq in E. left. now left.
    + right. intros [->|Hin]; [|contradiction].
      rewrite eqb_refl in E. discriminate.
Qed.

Lemma fold_max_ge {B} (f : B -> nat) (l : list B) (x : B) :
  In x l -> (f x <= fold_right Nat.max 0 (map f l))%nat.
Proof.
  induction l as [|y l IH]; simpl; [easy|].
  intros [->|Hin]; [lia|]. specialize (IH Hin). lia.
Qed.

Lemma fold_max_attained {B} (f : B -> nat) (l : list B) :
  l <> [] -> exists x, In x l /\ f x = fold_right Nat.max 0%nat (map f l).
Proof.
  induction l as [|y l IH]; [easy|]. intros _. simpl.
  destruct l as [|z l].
  - exists y. simpl. split; [now left|lia].
  - destruct IH as (x & Hin & Hx); [easy|].
    destruct (Nat.le_ge_cases (f y) (fold_right Nat.max 0%nat (map f (z :: l))))
      as [Hle|Hge].
    + exists x. split; [now right|]. rewrite Hx. lia.
    + exists y. split; [now left|]. lia.
Qed.

Lemma count_le_max (x : A) (s : list A) :
  (Series.count x s <= Series.max_count s)%nat.
Proof.
  destruct (in_dec_dtype x s) as [Hin|Hn].
  - unfold Series.max_count.
    apply (fold_max_ge (fun y => Series.count y s) s x Hin).
  - rewrite (count_zero x s Hn). lia.
Qed.

Lemma max_count_attained (s : list A) :
  s <> [] -> exists x, In x s /\ Series.count x s = Series.max_count s.
Proof.
  intros Hs. apply (fold_max_attained (fun y => Series.count y s) s Hs).
Qed.

Lemma in_unique (x : A) (s : list A) : In x (Series.unique s) <-> In x s.
Proof.
  induction s as [|y s IH]; simpl; [tauto|].
  rewrite filter_In, IH. split.
  - intros [->|[Hin _]]; [now left|now right].
  - intros [->|Hin]; [now left|].
    destruct (eqb y x) eqn:E.
    + apply eqb_eq in E. now left.
    + right. now split.
Qed.

Lemma in_insert (x y : A) (l : list A) :
  In x (Series.insert y l) <-> x = y \/ In x l.
Proof.
  induction l as [|z l IH]; simpl.
  - intuition.
  - destruct (leb y z); simpl; [intuition|]. rewrite IH. intuition.
Qed.

Lemma in_sort (x : A) (l : list A) : In x (Series.sort l) <-> In x l.
Proof.
  induction l as [|y l IH]; simpl; [tauto|].
  rewrite in_insert, IH. intuition.
Qed.

(** The first entry of a sorted column is below every entry. *)
Lemma sort_head_least (l : list A) :
  forall y t, Series.sort l = y :: t -> forall x, In x l -> leb y x = true.
Proof.
  induction l as [|a l IH]; [easy|]. simpl. intros y t Hs x Hx.
  destruct (Series.sort l) as [|b t'] eqn:Hl.
  - simpl in Hs. injection Hs as <- <-.
    destruct Hx as [->|Hx]; [apply leb_refl|].
    apply in_sort in Hx. rewrite Hl in Hx. destruct Hx.
  - simpl in Hs. destruct (leb a b) eqn:Hab.
    + injection Hs as <- <-.
      destruct Hx as [->|Hx]; [apply leb_refl|].
      apply (leb_trans _ b); [assumption|]. now apply (IH b t').
    + injection Hs as <- <-.
      destruct Hx as [->|Hx]; [|now apply (IH b t')].
      destruct (leb_total x b) as [E|E]; congruence.
Qed.

Lemma in_mode (x : A) (s : list A) :
  In x (Series.mode s) <->
  In x s /\ Series.count x s = Series.max_count s.
Proof.
  unfold Series.mode. rewrite in_sort, filter_In, in_unique, Nat.eqb_eq.
  tauto.
Qed.

(** [s.mode()[0]] is a value of the highest count, and the smallest of
    the values of that count. *)
Lemma mode_item0_sound (s : list A) (v : A) :
  Series.item0 (Series.mode s) = Ok v ->
  highest_count v s /\ smallest_tied v s.
Proof.
  intros Hv. destruct (Series.mode s) as [|y t] eqn:Hm; [discriminate|].
  injection Hv as ->.
  assert (Hin : In v (Series.mode s)) by (rewrite Hm; now left).
  apply in_mode in Hin. destruct Hin as [Hin Hmax].
  split; [split; [assumption|]|].
  - intros x. rewrite Hmax. apply count_le_max.
  - intros x Hx. unfold Series.mode in Hm.
    apply (sort_head_least _ _ _ Hm).
    apply filter_In. split.
    + apply in_unique. destruct (in_dec_dtype x s) as [Hi|Hn]; [assumption|].
      rewrite (count_zero x s Hn) in Hx. pose proof (count_pos v s Hin). lia.
    + apply Nat.eqb_eq. congruence.
Qed.

(** On a column that is not empty, [s.mode()[0]] is there. *)
Lemma mode_item0_total (s : list A) :
  s <> [] -> exists v, Series.item0 (Series.mode s) = Ok v.
Proof.
  intros Hs. destruct (max_count_attained s Hs) as (x & Hin & Hx).
  assert (Hm : In x (Series.mode s)) by (apply in_mode; now split).
  destruct (Series.mode s) as [|y t]; [destruct Hm|].
  exists y. reflexivity.
Qed.

Lemma mode_item0_empty : Series.item0 (Series.mode (@nil A)) = Raise (KeyError "0").
Proof. reflexivity. Qed.

(** Two values that both fit the description are the same value. *)
Lemma smallest_mode_unique (s : list A) (v w : A) :
  highest_count v s -> smallest_tied v s ->
  highest_count w s -> smallest_tied w s -> v = w.
Proof.
  intros [_ Hv] Sv [_ Hw] Sw.
  assert (E : Series.count v s = Series.count w s)
    by (pose proof (Hv w); pose proof (Hw v); lia).
  apply leb_antisym; [apply Sv|apply Sw]; congruence.
Qed.

Lemma mode_item0_complete (s : list A) (v : A) :
  highest_count v s -> smallest_tied v s ->
  Series.item0 (Series.mode s) = Ok v.
Proof.
  intros Hv Sv.
  assert (Hs : s <> []) by (destruct Hv as [Hin _]; now destruct s).
  destruct (mode_item0_total s Hs) as (w & Hw).
  destruct (mode_item0_sound s w Hw) as [Hh Hs'].
  now rewrite (smallest_mode_unique s v w Hv Sv Hh Hs').
Qed.

End SeriesFacts.

(** ** The counts of [value_counts] *)

Section ValueCounts.
Context {A : Type} `{DtypeLaws A}.

Lemma in_insert_count (p q : A * nat) (l : list (A * nat)) :
  In p (Series.insert_count q l) <-> p = q \/ In p l.
Proof.
  induction l as [|z l IH]; simpl.
  - intuition.
  - destruct (snd z <=? snd q)%nat; simpl; [intuition|]. rewrite IH. intuition.
Qed.

Lemma in_sorted_counts (p : A * nat) (l : list (A * nat)) :
  In p (fold_right Series.insert_count [] l) <-> In p l.
Proof.
  induction l as [|y l IH]; simpl; [tauto|].
  rewrite in_insert_count, IH. intuition.
Qed.

Lemma sorted_counts_head (l : list (A * nat)) :
  forall p t, fold_right Series.insert_count [] l = p :: t ->
  forall q, In q l -> (snd q <= snd p)%nat.
Proof.
  induction l as [|a l IH]; [easy|]. simpl. intros p t Hs q Hq.
  destruct (fold_right Series.insert_count [] l) as [|b t'] eqn:Hl.
  - simpl in Hs. injection Hs as <- <-.
    destruct Hq as [->|Hq]; [lia|].
    apply in_sorted_counts in Hq. rewrite Hl in Hq. destruct Hq.
  - simpl in Hs. destruct (snd b <=? snd a)%nat eqn:Hab.
    + injection Hs as <- <-. apply Nat.leb_le in Hab.
      destruct Hq as [->|Hq]; [lia|].
      specialize (IH b t' eq_refl q Hq). lia.
    + injection Hs as <- <-. apply Nat.leb_gt in Hab.
      destruct Hq as [->|Hq]; [lia|]. now apply (IH b t').
Qed.

(** The first category [value_counts] lists is one of the highest count,
    and it is listed with its count. *)
Lemma value_counts_head (s : list A) (c : A) (n : nat) (rest : list (A * nat)) :
  Series.value_counts s = (c, n) :: rest ->
  n = Series.count c s /\ highest_count c s.
Proof.
  unfold Series.value_counts. intros Hv.
  assert (Hin : In (c, n) (map (fun x => (x, Series.count x s)) (Series.unique s))).
  { apply in_sorted_counts. rewrite Hv. now left. }
  apply in_map_iff in Hin. destruct Hin as (x & Hx & Hu).
  injection Hx as -> <-. apply (proj1 (in_unique c s)) in Hu.
  split; [reflexivity|]. split; [assumption|].
  intros x. destruct (in_dec_dtype x s) as [Hi|Hn].
  - apply (sorted_counts_head _ _ _ Hv (x, Series.count x s)).
    apply in_map_iff. exists x. split; [reflexivity|]. now apply in_unique.
  - rewrite (count_zero x s Hn). lia.
Qed.

Lemma value_counts_nonempty (s : list A) :
  s <> [] -> Series.value_counts s <> [].
Proof.
  intros Hs Hv. destruct s as [|x s]; [easy|].
  assert (Hin : In (x, Series.count x (x :: s)) (Series.value_counts (x :: s))).
  { unfold Series.value_counts. apply in_sorted_counts.
    apply in_map_iff. exists x. split; [reflexivity|]. simpl. now left. }
  rewrite Hv in Hin. destruct Hin.
Qed.

End ValueCounts.

(** ** The aggregators, one equation each *)

Lemma count_in {A : Type} `{DtypeLaws A} (x : A) (s : list A) :
  (1 <= Series.count x s)%nat -> In x s.
Proof.
  intros Hc. destruct (in_dec_dtype x s) as [Hi|Hn]; [assumption|].
  rewrite (count_zero x s Hn) in Hc. lia.
Qed.

Lemma most_common_month_eq (df : DataFrame) :
  most_common_month df = (Series.item0 (Series.mode (values month df)), df).
Proof. reflexivity. Qed.

Lemma most_common_day_eq (df : DataFrame) :
  most_common_day df =
  (Series.item0 (Series.mode (values day_of_week df)), df).
Proof. reflexivity. Qed.

Lemma most_common_hour_eq (df : DataFrame) :
  most_common_hour df = (Series.item0 (Series.mode (values hour df)), df).
Proof. reflexivity. Qed.

Lemma user_types_count_eq (df : DataFrame) :
  user_types_count df = (Ok (Series.value_counts (values User_Type df)), df).
Proof. reflexivity. Qed.

Lemma total_travel_time_eq {F : Float64} (df : DataFrame) :
  total_travel_time df =
  (Series.py_int (Series.sum (map Trip_Duration (rows df))), df).
Proof. reflexivity. Qed.

Lemma average_travel_time_eq {F : Float64} (df : DataFrame) :
  average_travel_time df =
  (Ok (Series.mean (map Trip_Duration (rows df))), df).
Proof. reflexivity. Qed.

Lemma trip_strings_rows (rs : list Row) :
  trip_strings (map Start_Station rs) (map End_Station rs) =
  map trip_string rs.
Proof.
  induction rs as [|r rs IH]; simpl; [reflexivity|]. now rewrite IH.
Qed.

Lemma most_common_stations_eq (df : DataFrame) :
  most_common_stations df =
  match Series.item0 (Series.mode (values Start_Station df)) with
  | Raise e => (Raise e, df)
  | Ok a =>
      match Series.item0 (Series.mode (values End_Station df)) with
      | Raise e => (Raise e, df)
      | Ok b =>
          match Series.item0 (Series.mode (values trip_string df)) with
          | Raise e => (Raise e, with_Trip df)
          | Ok t => (Ok (a, b, t), with_Trip df)
          end
      end
  end.
Proof.
  unfold most_common_stations, bind, column, lift, setitem_Trip, column_Trip,
    ret, with_Trip, values.
  destruct (Series.item0 (Series.mode (Series.dropna (map Start_Station _))));
    [|reflexivity].
  destruct (Series.item0 (Series.mode (Series.dropna (map End_Station _))));
    [|reflexivity].
  cbn [Trip rows demographics]. rewrite trip_strings_rows.
  destruct (Series.item0 (Series.mode (Series.dropna (map trip_string _))));
    reflexivity.
Qed.

Lemma gender_count_eq (df : DataFrame) :
  gender_count df =
  if demographics df
  then (Ok (Series.value_counts (values Gender df)), df)
  else (Raise (KeyError "Gender"), df).
Proof.
  unfold gender_count, bind, optional_column, ret.
  destruct (demographics df); reflexivity.
Qed.

Lemma birth_year_stats_eq (df : DataFrame) :
  birth_year_stats df =
  if demographics df then
    let s := values Birth_Year df in
    match Series.int (Series.min s) with
    | Raise e => (Raise e, df)
    | Ok earliest =>
        match Series.int (Series.max s) with
        | Raise e => (Raise e, df)
        | Ok latest =>
            match Series.item0 (Series.mode s) with
            | Raise e => (Raise e, df)
            | Ok common => (Ok (earliest, latest, common), df)
            end
        end
    end
  else (Raise (KeyError "Birth Year"), df).
Proof.
  unfold birth_year_stats, bind, optional_column, ret, lift, values.
  destruct (demographics df) eqn:Hd; [|reflexivity]. cbn zeta.
  destruct (Series.int (Series.min _)); [|reflexivity]. rewrite Hd.
  destruct (Series.int (Series.max _)); [|reflexivity]. rewrite Hd.
  destruct (Series.item0 _); reflexivity.
Qed.

Lemma map_nonempty {A B} (f : A -> B) (l : list A) : l <> [] -> map f l <> [].
Proof. destruct l; [easy|discriminate]. Qed.

(** A blank cell aside, the values of a column are its cells. *)
Lemma in_dropna {A} (x : A) (s : list (option A)) :
  In x (Series.dropna s) <-> In (Some x) s.
Proof.
  induction s as [|[y|] s IH]; simpl.
  - tauto.
  - rewrite IH. split; intros [E|E]; auto; left; congruence.
  - rewrite IH. split; [auto|]. intros [E|E]; [discriminate|assumption].
Qed.

Lemma in_values {A} (f : Row -> option A) (df : DataFrame) (x : A) :
  In x (values f df) <-> exists r, In r (rows df) /\ f r = Some x.
Proof.
  unfold values. rewrite in_dropna, in_map_iff.
  split; intros (r & H1 & H2); exists r; now split.
Qed.

Lemma values_nil {A} (f : Row -> option A) (df : DataFrame) :
  rows df = [] -> values f df = [].
Proof. unfold values. now intros ->. Qed.

(** A row with a trip string has both stations. *)
Lemma values_trip_string (df : DataFrame) :
  values trip_string df <> [] ->
  values Start_Station df <> [] /\ values End_Station df <> [].
Proof.
  intros Hne.
  destruct (values trip_string df) as [|t ts] eqn:Ht; [easy|].
  assert (Hin : In t (values trip_string df)) by (rewrite Ht; now left).
  apply in_values in Hin. destruct Hin as (r & Hr & Hs).
  unfold trip_string, trip_of in Hs.
  destruct (Start_Station r) as [a|] eqn:Ha; [|discriminate].
  destruct (End_Station r) as [b|] eqn:Hb; [|discriminate].
  split; intros E.
  - assert (Hi : In a (values Start_Station df))
      by (apply in_values; eauto).
    rewrite E in Hi. destruct Hi.
  - assert (Hi : In b (values End_Station df))
      by (apply in_values; eauto).
    rewrite E in Hi. destruct Hi.
Qed.

(** ** C1: which value the mode functions return *)

(** C1, the claim as stated, fails on a frame of two trips with the
    Tuesday trip first: both weekdays occur once, the value met first is
    "Tuesday", and [most_common_day] returns "Monday". *)
Lemma C1_first_seen_counterexample :
  fst (most_common_day tuesday_first) = Ok "Monday" /\
  first_seen_mode (values day_of_week tuesday_first) = Some "Tuesday" /\
  Series.count "Tuesday" (values day_of_week tuesday_first) =
  Series.count "Monday" (values day_of_week tuesday_first).
Proof. repeat split. Qed.

(** C1 (amended): on a view that is not empty, [most_common_month],
    [most_common_day], [most_common_hour], the three components of
    [most_common_stations] and the most common year of [birth_year_stats]
    are each a value of the highest occurrence count in their column, and
    of the values that share the highest count the one returned is the
    smallest in sort order (ascending numbers, strings by code point),
    wherever it stands in the source; the first category that
    [user_types_count] lists has the highest count.  A blank cell is no
    value and counts for nothing; what a column needs is one cell that is
    not blank.  On a view whose weekdays are five "Monday" and five
    "Tuesday", [most_common_day] returns "Monday". *)
Theorem C1_mode_is_smallest_of_most_frequent (df : DataFrame) :
  (values month df <> [] ->
   exists mo, fst (most_common_month df) = Ok mo /\
              smallest_mode mo (values month df)) /\
  (values day_of_week df <> [] ->
   exists dy, fst (most_common_day df) = Ok dy /\
              smallest_mode dy (values day_of_week df)) /\
  (values hour df <> [] ->
   exists hr, fst (most_common_hour df) = Ok hr /\
              smallest_mode hr (values hour df)) /\
  (values trip_string df <> [] ->
   exists a b t, fst (most_common_stations df) = Ok (a, b, t) /\
                 smallest_mode a (values Start_Station df) /\
                 smallest_mode b (values End_Station df) /\
                 smallest_mode t (values trip_string df)) /\
  (values User_Type df <> [] ->
   exists c n rest, fst (user_types_count df) = Ok ((c, n) :: rest) /\
                    n = Series.count c (values User_Type df) /\
                    highest_count c (values User_Type df)) /\
  (demographics df = true ->
   values Birth_Year df <> [] ->
   exists e r c, fst (birth_year_stats df) = Ok (e, r, c) /\
                 smallest_mode c (values Birth_Year df)) /\
  (Series.count "Monday" (values day_of_week df) = 5%nat ->
   Series.count "Tuesday" (values day_of_week df) = 5%nat ->
   forallb (fun d => String.eqb d "Monday" || String.eqb d "Tuesday")
           (values day_of_week df) = true ->
   fst (most_common_day df) = Ok "Monday").
Proof.
  assert (M : forall {A} `{DtypeLaws A} (s : list A),
             s <> [] ->
             exists v, Series.item0 (Series.mode s) = Ok v /\
                       smallest_mode v s).
  { intros A D L s Hne.
    destruct (mode_item0_total s Hne) as (v & Hv).
    exists v. split; [assumption|]. now apply mode_item0_sound. }
  repeat apply conj.
  - intros Hne. rewrite most_common_month_eq. exact (M _ _ _ _ Hne).
  - intros Hne. rewrite most_common_day_eq. exact (M _ _ _ _ Hne).
  - intros Hne. rewrite most_common_hour_eq. exact (M _ _ _ _ Hne).
  - intros Hne. rewrite most_common_stations_eq.
    destruct (values_trip_string df Hne) as [Hs He].
    destruct (M _ _ _ _ Hs) as (a & -> & Ha).
    destruct (M _ _ _ _ He) as (b & -> & Hb).
    destruct (M _ _ _ _ Hne) as (t & -> & Ht).
    exists a, b, t. auto.
  - intros Hne. rewrite user_types_count_eq. cbn [fst].
    destruct (Series.value_counts (values User_Type df)) as [|[c n] rest]
      eqn:Hv.
    + exfalso. revert Hv. now apply value_counts_nonempty.
    + exists c, n, rest. split; [reflexivity|].
      now apply value_counts_head in Hv.
  - intros Hd Hb. rewrite birth_year_stats_eq, Hd. cbn zeta.
    destruct (values Birth_Year df) as [|y ys] eqn:Hs; [easy|].
    cbn [Series.min Series.max Series.int].
    destruct (mode_item0_total (y :: ys)) as (c & Hc); [easy|].
    rewrite Hc. exists (fold_right Z.min y ys), (fold_right Z.max y ys), c.
    split; [reflexivity|]. now apply mode_item0_sound.
  - intros Hmon Htue Hall. rewrite most_common_day_eq. cbn [fst].
    set (s := values day_of_week df) in *.
    assert (Hs : forall x, In x s -> x = "Monday" \/ x = "Tuesday").
    { intros x Hx. rewrite forallb_forall in Hall. specialize (Hall x Hx).
      apply orb_true_iff in Hall.
      destruct Hall as [E|E]; apply String.eqb_eq in E; auto. }
    apply mode_item0_complete.
    + split.
      * apply count_in. rewrite Hmon. lia.
      * intros x. rewrite Hmon.
        destruct (in_dec_dtype x s) as [Hi|Hn].
        -- destruct (Hs x Hi) as [->| ->]; lia.
        -- rewrite (count_zero x s Hn). lia.
    + intros x Hx. rewrite Hmon in Hx.
      assert (Hi : In x s) by (apply count_in; lia).
      destruct (Hs x Hi) as [->| ->]; reflexivity.
Qed.

Lemma C1_mode_witness :
  values day_of_week monday_tuesday <> [] /\
  fst (most_common_day monday_tuesday) = Ok "Monday".
Proof.
  split; [discriminate|].
  apply (C1_mode_is_smallest_of_most_frequent monday_tuesday);
    reflexivity.
Defined.

(** ** C2: total and average travel time *)

(** An [int64] column is one. *)
Lemma ints_map_Int (l : list Z) : Series.ints (map Int l) = Some l.
Proof.
  induction l as [|z l IH]; [reflexivity|]. simpl. now rewrite IH.
Qed.



(** Every [int64] comes back as one, and as the same modulo 2^64. *)
Lemma wrap64_spec (z : Z) :
  - 2 ^ 63 <= Series.wrap64 z < 2 ^ 63 /\
  (Series.wrap64 z - z) mod 2 ^ 64 = 0.
Proof.
  unfold Series.wrap64.
  pose proof (Z.mod_pos_bound (z + 2 ^ 63) (2 ^ 64) ltac:(lia)) as Hb.
  split; [lia|].
  pose proof (Z.div_mod (z + 2 ^ 63) (2 ^ 64) ltac:(lia)) as Hd.
  replace ((z + 2 ^ 63) mod 2 ^ 64 - 2 ^ 63 - z)
    with (- ((z + 2 ^ 63) / 2 ^ 64) * 2 ^ 64) by lia.
  apply Z.mod_mul. lia.
Qed.


Lemma Zsum_abs (l : list Z) :
  Z.abs (Series.Zsum l) <= Series.Zsum (map Z.abs l).
Proof.
  unfold Series.Zsum. induction l as [|y l IH]; simpl; lia.
Qed.






(** ** C3: what the aggregators do to the frame *)

(** C3, the claim as stated, fails for [most_common_stations]: the frame it
    was called on has a column ['Trip'] afterwards that it did not have
    before. *)
Lemma C3_most_common_stations_adds_a_column :
  Trip tuesday_first = None /\
  Trip (snd (most_common_stations tuesday_first)) =
  Some [Some "X to Y"; Some "X to Y"] /\
  snd (most_common_stations tuesday_first) <> tuesday_first.
Proof. repeat split. discriminate. Qed.

(** C3 (amended): every aggregator other than [most_common_stations] leaves
    the frame it is called on as it was; [most_common_stations] leaves the
    records and every column it found unchanged, and on a view that is not
    empty it assigns the column ['Trip'] of the frame it is called on, which
    holds the string of each record; on an empty view it raises before the
    assignment.  With blank cells: it assigns the column when each station
    column has a cell that is not blank, and raises before the assignment
    when one has none. *)
Theorem C3_frame_effects {F : Float64} (df : DataFrame) :
  snd (most_common_month df) = df /\
  snd (most_common_day df) = df /\
  snd (most_common_hour df) = df /\
  snd (total_travel_time df) = df /\
  snd (average_travel_time df) = df /\
  snd (user_types_count df) = df /\
  snd (gender_count df) = df /\
  snd (birth_year_stats df) = df /\
  rows (snd (most_common_stations df)) = rows df /\
  demographics (snd (most_common_stations df)) = demographics df /\
  (values Start_Station df <> [] ->
   values End_Station df <> [] ->
   Trip (snd (most_common_stations df)) = Some (map trip_string (rows df))) /\
  (values Start_Station df = [] \/ values End_Station df = [] ->
   snd (most_common_stations df) = df) /\
  (rows df = [] -> snd (most_common_stations df) = df).
Proof.
  assert (Hnone : values Start_Station df = [] \/ values End_Station df = [] ->
                  snd (most_common_stations df) = df).
  { intros Hn. rewrite most_common_stations_eq.
    destruct (Series.item0 (Series.mode (values Start_Station df))) as [a|e]
      eqn:Ha; [|reflexivity].
    destruct (Series.item0 (Series.mode (values End_Station df))) as [b|e]
      eqn:Hb; [|reflexivity].
    exfalso. destruct Hn as [E|E].
    - rewrite E in Ha. discriminate.
    - rewrite E in Hb. discriminate. }
  repeat apply conj; try reflexivity.
  - rewrite gender_count_eq. now destruct (demographics df).
  - rewrite birth_year_stats_eq. destruct (demographics df); [|reflexivity].
    cbn zeta. destruct (Series.int (Series.min _)); [|reflexivity].
    destruct (Series.int (Series.max _)); [|reflexivity].
    destruct (Series.item0 _); reflexivity.
  - rewrite most_common_stations_eq.
    repeat (destruct (Series.item0 _)); reflexivity.
  - rewrite most_common_stations_eq.
    repeat (destruct (Series.item0 _)); reflexivity.
  - intros Hs He. rewrite most_common_stations_eq.
    destruct (mode_item0_total _ Hs) as (a & ->).
    destruct (mode_item0_total _ He) as (b & ->).
    destruct (Series.item0 _); reflexivity.
  - exact Hnone.
  - intros He. apply Hnone. left. now apply values_nil.
Qed.

Lemma C3_frame_effects_witness :
  Trip (snd (most_common_stations three_durations)) =
  Some (map trip_string (rows three_durations)) /\
  snd (most_common_stations empty_view) = empty_view.
Proof.
  split.
  - apply (C3_frame_effects three_durations); discriminate.
  - apply (C3_frame_effects empty_view). reflexivity.
Defined.

(** The frame [main] holds is the one its later calls and the raw-data
    display see: after a round on the file of two lines it has the column. *)
Lemma main_round_frame_has_Trip :
  exists r w,
    main_round washington_only parse_two "washington" "all" "all" =
    Reported r w /\
    Trip (frame w) = Some [Some "A to B"; Some "A to C"].
Proof. do 2 eexists. split; reflexivity. Qed.

(** ** C7: the most common trip *)

(** C7, the claim as stated, fails on a frame of two trips made once each,
    the one from "B" to "C" first: the mode of the strings, as the
    specification defines a mode, is the one met first, "B to C", and
    [most_common_stations] returns "A to B". *)
Lemma C7_trip_is_not_the_first_seen :
  fst (most_common_stations two_trips) = Ok ("A", "B", "A to B") /\
  first_seen_mode (values trip_string two_trips) = Some "B to C" /\
  Series.count "B to C" (values trip_string two_trips) =
  Series.count "A to B" (values trip_string two_trips).
Proof. repeat split. Qed.

(** C7 (amended): on a view that is not empty (one with a record that has
    both stations) the trip component that [most_common_stations] returns
    is a string of the highest occurrence count among the strings
    start + " to " + end built record by record, and of the strings that
    share the highest count it is the smallest in sort order, not the one
    met first; it is not put together from the most common start station
    and the most common end station: there is a view on which it differs
    from the most common start station, " to ", the most common end
    station. *)
Theorem C7_trip_is_mode_of_pairs :
  (forall df : DataFrame,
      values trip_string df <> [] ->
      exists a b t,
        fst (most_common_stations df) = Ok (a, b, t) /\
        smallest_mode t (values trip_string df) /\
        forall t', smallest_mode t' (values trip_string df) -> t' = t) /\
  (exists df a b t,
      fst (most_common_stations df) = Ok (a, b, t) /\
      smallest_mode a (values Start_Station df) /\
      smallest_mode b (values End_Station df) /\
      t <> (a ++ " to " ++ b)%string).
Proof.
  split.
  - intros df Hne. rewrite most_common_stations_eq.
    destruct (values_trip_string df Hne) as [Hs He].
    destruct (mode_item0_total _ Hs) as (a & ->).
    destruct (mode_item0_total _ He) as (b & ->).
    destruct (mode_item0_total _ Hne) as (t & Ht).
    rewrite Ht. exists a, b, t.
    pose proof (mode_item0_sound _ _ Ht) as [Hh Hsm].
    repeat split; try assumption; try apply Hh.
    intros t' [Hh' Hsm']. now apply (smallest_mode_unique (values trip_string df)).
  - exists diverging_stations, "X", "Y", "M to N".
    split; [reflexivity|].
    split; [|split; [|discriminate]].
    + apply (mode_item0_sound (values Start_Station diverging_stations)).
      reflexivity.
    + apply (mode_item0_sound (values End_Station diverging_stations)).
      reflexivity.
Qed.

Lemma C7_trip_witness :
  exists a b t,
    fst (most_common_stations diverging_stations) = Ok (a, b, t) /\
    smallest_mode t (values trip_string diverging_stations) /\
    forall t', smallest_mode t' (values trip_string diverging_stations) ->
               t' = t.
Proof.
  apply (proj1 C7_trip_is_mode_of_pairs diverging_stations). discriminate.
Defined.

(** ** Lower-casing and stripping *)

Lemma join_chars (s : string) : Str.join (Str.chars s) = s.
Proof.
  induction s as [|b s IH]; [reflexivity|].
  cbn [Str.chars]. destruct (Str.chars s) as [|c cs].
  - cbn in IH. now subst s.
  - destruct (Str.continues c); cbn in *; now rewrite IH.
Qed.

Lemma dropwhile_none {A} (p : A -> bool) (l : list A) :
  Forall (fun x => p x = false) l -> Str.dropwhile p l = l.
Proof. destruct 1 as [|x l Hx _]; simpl; [reflexivity|now rewrite Hx]. Qed.

(** A string without a blank is its own stripped form. *)
Lemma strip_no_blank (s : string) :
  Forall (fun c => Str.isspace c = false) (Str.chars s) -> Str.strip s = s.
Proof.
  intros Hs. unfold Str.strip. rewrite (dropwhile_none _ _ Hs).
  rewrite dropwhile_none by now apply Forall_rev.
  now rewrite rev_involutive, join_chars.
Qed.

(** The bytes of a string. *)
Lemma bytes_join (c : string) (cs : list string) :
  In c cs ->
  forall b, In b (list_ascii_of_string c) ->
            In b (list_ascii_of_string (Str.join cs)).
Proof.
  assert (Happ : forall x y b,
             In b (list_ascii_of_string (x ++ y)) <->
             In b (list_ascii_of_string x) \/ In b (list_ascii_of_string y)).
  { induction x as [|a x IH]; intros y b; simpl; [tauto|].
    rewrite IH. tauto. }
  induction cs as [|d cs IH]; simpl; [easy|].
  intros [->|Hin] b Hb; apply Happ; [now left|right; now apply IH].
Qed.

(** A blank starts with a byte that is no letter. *)
Lemma blank_first_byte (c : string) :
  Str.isspace c = true ->
  exists b rest, c = String b rest /\
                 ((N_of_ascii b <? 65) || (127 <? N_of_ascii b))%N = true.
Proof.
  unfold Str.isspace. rewrite existsb_exists. intros (x & Hin & E).
  apply String.eqb_eq in E. subst x. revert Hin. unfold Str.blanks.
  cbn [map Str.of_bytes string_of_list_ascii In].
  intros H.
  repeat (destruct H as [<-|H]; [do 2 eexists; split; reflexivity|]).
  destruct H.
Qed.

Section Lowering.
Context {U : Str.Unicode}.

(** Lower-casing leaves a blank as it is. *)
Lemma lower_char_blank (before c after : string) :
  Str.isspace c = true -> Str.lower_char before c after = c.
Proof.
  intros Hc. unfold Str.lower_char.
  destruct (String.eqb c Str.capital_sigma) eqn:Es.
  { apply String.eqb_eq in Es. subst c. discriminate Hc. }
  destruct c as [|b [|b' c']]; try now apply Str.tolower_blank.
  destruct (N_of_ascii b <? 128)%N eqn:Hb; [|now apply Str.tolower_blank].
  destruct (blank_first_byte _ Hc) as (b0 & rest & E & Hlow).
  injection E as <- <-.
  unfold Str.lower_ascii.
  destruct ((65 <=? N_of_ascii b) && (N_of_ascii b <=? 90))%N eqn:Hup;
    [|reflexivity].
  exfalso. apply andb_true_iff in Hup. destruct Hup as [H1 H2].
  apply orb_true_iff in Hlow.
  apply N.leb_le in H1, H2. apply N.ltb_lt in Hb.
  destruct Hlow as [H|H]; apply N.ltb_lt in H; lia.
Qed.

Lemma lower_from_blank (cs : list string) :
  forall before c,
    In c cs -> Str.isspace c = true -> In c (Str.lower_from before cs).
Proof.
  induction cs as [|d cs IH]; intros before c; simpl; [easy|].
  intros [->|Hin] Hc.
  - left. now apply lower_char_blank.
  - right. now apply IH.
Qed.

(** A string that lower-cases to "all" holds no blank. *)
Lemma lower_all_no_blank (s : string) :
  Str.lower s = "all" ->
  Forall (fun c => Str.isspace c = false) (Str.chars s).
Proof.
  intros E. apply Forall_forall. intros c Hin.
  destruct (Str.isspace c) eqn:Hc; [exfalso|reflexivity].
  pose proof (lower_from_blank _ "" c Hin Hc) as Hl.
  destruct (blank_first_byte c Hc) as (b & rest & -> & Hb).
  pose proof (bytes_join _ _ Hl b (or_introl eq_refl)) as Hbytes.
  fold (Str.lower s) in Hbytes. rewrite E in Hbytes.
  simpl in Hbytes.
  destruct Hbytes as [<-|[<-|[<-|[]]]]; discriminate Hb.
Qed.

(** A value that lower-cases to "all" still does so once stripped. *)
Lemma lower_all_strip (s : string) :
  Str.lower s = "all" -> Str.lower (Str.strip s) = "all".
Proof.
  intros E. now rewrite (strip_no_blank s (lower_all_no_blank s E)).
Qed.

Lemma strip_empty_not_truthy (s : string) :
  Str.truthy s = false -> Str.lower (Str.strip s) = "".
Proof. destruct s; [reflexivity|discriminate]. Qed.

End Lowering.

(** ** Masks *)

Lemma select_map_filter {A} (p : A -> bool) (l : list A) :
  select (map p l) l = filter p l.
Proof.
  unfold select. induction l as [|x l IH]; simpl; [reflexivity|].
  destruct (p x); simpl; now rewrite IH.
Qed.

Lemma length_select_le {A B} (p : A -> bool) (l : list A) :
  forall t : list B,
    (List.length (select (map p l) t) <= List.length (filter p l))%nat.
Proof.
  unfold select. induction l as [|x l IH]; intros [|y t]; simpl; try lia.
  specialize (IH t). destruct (p x); simpl; lia.
Qed.

Lemma select_all_true {A B} (p : A -> bool) (l : list A) :
  Forall (fun x => p x = true) l ->
  forall t : list B,
    (List.length t <= List.length l)%nat -> select (map p l) t = t.
Proof.
  unfold select. induction 1 as [|x l Hx Hl IH]; intros [|y t]; simpl;
    try reflexivity; try lia.
  intros Hlen. rewrite Hx. simpl. rewrite IH; [reflexivity|lia].
Qed.

Lemma filter_all_true {A} (p : A -> bool) (l : list A) :
  Forall (fun x => p x = true) l -> filter p l = l.
Proof.
  induction 1 as [|x l Hx Hl IH]; simpl; [reflexivity|].
  now rewrite Hx, IH.
Qed.

Lemma filter_filter {A} (p q : A -> bool) (l : list A) :
  filter q (filter p l) = filter (fun x => p x && q x) l.
Proof.
  induction l as [|x l IH]; simpl; [reflexivity|].
  destruct (p x); simpl; [destruct (q x)|]; now rewrite IH.
Qed.

Lemma Forall_filter_self {A} (p : A -> bool) (l : list A) :
  Forall (fun x => p x = true) (filter p l).
Proof. apply Forall_forall. intros x Hx. now apply filter_In in Hx. Qed.

Lemma Forall_filter_keeps {A} (P : A -> Prop) (q : A -> bool) (l : list A) :
  Forall P l -> Forall P (filter q l).
Proof.
  rewrite !Forall_forall. intros Hl x Hx. apply filter_In in Hx. now apply Hl.
Qed.

(** ** Restricting a frame *)

Lemma rows_restrict (df : DataFrame) (p : Row -> bool) :
  rows (restrict df p) = filter p (rows df).
Proof. apply select_map_filter. Qed.

Lemma demographics_restrict (df : DataFrame) (p : Row -> bool) :
  demographics (restrict df p) = demographics df.
Proof. reflexivity. Qed.

Lemma restrict_fits (df : DataFrame) (p : Row -> bool) :
  trip_fits (restrict df p).
Proof.
  unfold trip_fits. rewrite rows_restrict. unfold restrict, getitem_mask.
  cbn [Trip]. destruct (Trip df) as [t|]; simpl; [|exact I].
  apply length_select_le.
Qed.

(** Restricting to a condition that every row meets changes nothing. *)
Lemma restrict_id (df : DataFrame) (p : Row -> bool) :
  Forall (fun r => p r = true) (rows df) -> trip_fits df ->
  restrict df p = df.
Proof.
  intros Hp Hf. destruct df as [rs dm tr]. unfold restrict, getitem_mask.
  unfold trip_fits in Hf. simpl in *. f_equal.
  - rewrite select_map_filter. now apply filter_all_true.
  - destruct tr as [t|]; simpl; [|reflexivity].
    f_equal. now apply select_all_true.
Qed.

Lemma restrict_idempotent (df : DataFrame) (p : Row -> bool) :
  restrict (restrict df p) p = restrict df p.
Proof.
  apply restrict_id; [|apply restrict_fits].
  rewrite rows_restrict. apply Forall_filter_self.
Qed.

Lemma restrict_pair_idempotent (df : DataFrame) (p q : Row -> bool) :
  let v := restrict (restrict df p) q in
  restrict (restrict v p) q = v.
Proof.
  intros v.
  assert (Hp : restrict v p = v).
  { apply restrict_id; [|apply restrict_fits].
    unfold v. rewrite rows_restrict. apply Forall_filter_keeps.
    rewrite rows_restrict. apply Forall_filter_self. }
  rewrite Hp. apply restrict_idempotent.
Qed.

(** ** The two filters, case by case *)

Lemma index_of_member (x : string) (l : list string) :
  Str.mem x l = true ->
  exists i, index x l = Ok i /\ nth_error l i = Some x.
Proof.
  unfold Str.mem. induction l as [|y l IH]; simpl; [discriminate|].
  rewrite (String.eqb_sym x y). destruct (String.eqb y x) eqn:E.
  - intros _. apply String.eqb_eq in E. subst. now exists O.
  - simpl. intros Hm. destruct (IH Hm) as (i & Hi & Hn).
    exists (S i). rewrite Hi. now split.
Qed.

Lemma nth_error_months_bound (i : nat) (x : string) :
  nth_error months i = Some x -> (i < 6)%nat.
Proof.
  intros Hn. apply (nth_error_Some months i). congruence.
Qed.

Section Filters.
Context {U : Str.Unicode}.

(** A value that names one of the six months selects the rows of that
    month, by number. *)
Lemma filter_month_valid (mo : string) :
  Str.mem (Str.lower (Str.strip mo)) months = true ->
  exists n,
    1 <= n <= 6 /\
    nth_error months (Z.to_nat (n - 1)) = Some (Str.lower (Str.strip mo)) /\
    forall df, filter_month df (Some mo) =
               Ok (restrict df (fun r => Series.eq (month r) n)).
Proof.
  intros Hm. destruct (index_of_member _ _ Hm) as (i & Hi & Hn).
  exists (Z.of_nat i + 1). pose proof (nth_error_months_bound _ _ Hn).
  split; [lia|]. split.
  - replace (Z.to_nat (Z.of_nat i + 1 - 1)) with i by lia. assumption.
  - intros df. unfold filter_month.
    destruct (Str.truthy mo) eqn:Ht.
    2:{ rewrite (strip_empty_not_truthy mo Ht) in Hm. discriminate. }
    destruct (String.eqb (Str.lower mo) "all") eqn:Ea.
    { apply String.eqb_eq in Ea. rewrite (lower_all_strip mo Ea) in Hm.
      discriminate. }
    cbn [andb negb]. rewrite Hm. cbn [negb]. rewrite Hi. reflexivity.
Qed.

Lemma filter_month_invalid (mo : string) (df : DataFrame) :
  Str.truthy mo = true -> Str.lower mo <> "all" ->
  Str.mem (Str.lower (Str.strip mo)) months = false ->
  filter_month df (Some mo) = Raise invalid_month.
Proof.
  intros Ht Ha Hm. unfold filter_month. rewrite Ht.
  apply String.eqb_neq in Ha. rewrite Ha. cbn [andb negb].
  now rewrite Hm.
Qed.

Lemma filter_day_valid (dy : string) (df : DataFrame) :
  Str.mem (Str.lower (Str.strip dy)) days = true ->
  filter_day df (Some dy) =
  Ok (restrict df (fun r => Series.eq (option_map Str.lower (day_of_week r))
                                      (Str.lower (Str.strip dy)))).
Proof.
  intros Hm. unfold filter_day.
  destruct (Str.truthy dy) eqn:Ht.
  2:{ rewrite (strip_empty_not_truthy dy Ht) in Hm. discriminate. }
  destruct (String.eqb (Str.lower dy) "all") eqn:Ea.
  { apply String.eqb_eq in Ea. rewrite (lower_all_strip dy Ea) in Hm.
    discriminate. }
  cbn [andb negb]. rewrite Hm. reflexivity.
Qed.

Lemma filter_day_invalid (dy : string) (df : DataFrame) :
  Str.truthy dy = true -> Str.lower dy <> "all" ->
  Str.mem (Str.lower (Str.strip dy)) days = false ->
  filter_day df (Some dy) = Raise invalid_day.
Proof.
  intros Ht Ha Hm. unfold filter_day. rewrite Ht.
  apply String.eqb_neq in Ha. rewrite Ha. cbn [andb negb].
  now rewrite Hm.
Qed.

(** Whatever the argument, a filter either rejects it, or keeps the frame,
    or restricts the frame by a condition that does not depend on it. *)
Lemma filter_month_shape (month_arg : option string) :
  (forall df, filter_month df month_arg = Raise invalid_month) \/
  (forall df, filter_month df month_arg = Ok df) \/
  (exists p, forall df, filter_month df month_arg = Ok (restrict df p)).
Proof.
  destruct month_arg as [mo|]; [|right; left; reflexivity].
  destruct (Str.mem (Str.lower (Str.strip mo)) months) eqn:Hm.
  - right. right. destruct (filter_month_valid mo Hm) as (n & _ & _ & Hn).
    eexists. exact Hn.
  - unfold filter_month. rewrite Hm.
    destruct (Str.truthy mo && negb (String.eqb (Str.lower mo) "all")).
    + left. reflexivity.
    + right. left. reflexivity.
Qed.

Lemma filter_day_shape (day_arg : option string) :
  (forall df, filter_day df day_arg = Raise invalid_day) \/
  (forall df, filter_day df day_arg = Ok df) \/
  (exists p, forall df, filter_day df day_arg = Ok (restrict df p)).
Proof.
  destruct day_arg as [dy|]; [|right; left; reflexivity].
  destruct (Str.mem (Str.lower (Str.strip dy)) days) eqn:Hm.
  - right. right. eexists. intros df. now apply filter_day_valid.
  - unfold filter_day. rewrite Hm.
    destruct (Str.truthy dy && negb (String.eqb (Str.lower dy) "all")).
    + left. reflexivity.
    + right. left. reflexivity.
Qed.

(** A month name with a no-break space after it: lower-cased it keeps the
    blank, stripped it loses it. *)
Lemma lower_January_nbsp :
  Str.lower ("January" ++ no_break_space) = "january" ++ no_break_space /\
  Str.lower (Str.strip ("January" ++ no_break_space)) = "january".
Proof.
  split; [|reflexivity].
  unfold Str.lower. cbn [Str.chars append no_break_space Str.of_bytes map
                          string_of_list_ascii Str.continues].
  cbn. now rewrite Str.tolower_blank.
Qed.

End Filters.

(** ** C4: values the filters reject *)

(** C4, the claim as stated, fails for the empty string: it is none of the
    month names, none of the weekday names and not "all", and both filters
    take it for an omitted argument and return the frame as it is. *)
Lemma C4_empty_string_is_not_rejected :
  Str.mem (Str.lower (Str.strip "")) months = false /\
  Str.mem (Str.lower (Str.strip "")) days = false /\
  Str.lower (Str.strip "") <> "all" /\
  apply_filters two_months (Some "") None = Ok two_months /\
  apply_filters two_months None (Some "") = Ok two_months.
Proof. repeat split. discriminate. Qed.

(** C4 (amended): a month value that is not empty, does not lower-case to
    "all" and, stripped and lower-cased, is none of january..june is rejected
    with the invalid-month [ValueError], whatever the weekday argument; so
    are "July" to "December".  A weekday value that is not empty, does not
    lower-case to "all" and, stripped and lower-cased, is none of the seven
    weekday names is rejected with a [ValueError] (the invalid-day one
    unless the month argument was rejected first); so is "Funday".  An empty
    string is taken for an omitted argument and filters nothing.  The
    blanks that stripping removes are those of Unicode: "January" with a
    no-break space after it is accepted. *)
Theorem C4_invalid_values_are_rejected {U : Str.Unicode} (df : DataFrame) :
  (forall mo day_arg,
      Str.truthy mo = true -> Str.lower mo <> "all" ->
      Str.mem (Str.lower (Str.strip mo)) months = false ->
      apply_filters df (Some mo) day_arg = Raise invalid_month) /\
  (forall dy month_arg,
      Str.truthy dy = true -> Str.lower dy <> "all" ->
      Str.mem (Str.lower (Str.strip dy)) days = false ->
      filter_day df (Some dy) = Raise invalid_day /\
      (apply_filters df month_arg (Some dy) = Raise invalid_month \/
       apply_filters df month_arg (Some dy) = Raise invalid_day)) /\
  (forall mo day_arg,
      In mo ["July"; "August"; "September"; "October"; "November";
             "December"] ->
      apply_filters df (Some mo) day_arg = Raise invalid_month) /\
  apply_filters df None (Some "Funday") = Raise invalid_day /\
  apply_filters df (Some "") None = Ok df /\
  apply_filters df None (Some "") = Ok df /\
  apply_filters df (Some ("January" ++ no_break_space)) None =
  Ok (restrict df (fun r => Series.eq (month r) 1)).
Proof.
  assert (Hmonth : forall mo day_arg,
             Str.truthy mo = true -> Str.lower mo <> "all" ->
             Str.mem (Str.lower (Str.strip mo)) months = false ->
             apply_filters df (Some mo) day_arg = Raise invalid_month).
  { intros mo day_arg Ht Ha Hm. unfold apply_filters.
    now rewrite (filter_month_invalid mo df Ht Ha Hm). }
  repeat apply conj.
  - exact Hmonth.
  - intros dy month_arg Ht Ha Hm. split.
    + now apply filter_day_invalid.
    + unfold apply_filters.
      destruct (filter_month_shape month_arg) as [E|[E|(p & E)]];
        rewrite E; cbn [rbind]; [now left|right..];
        now apply filter_day_invalid.
  - intros mo day_arg Hin. simpl in Hin.
    repeat (destruct Hin as [<-|Hin];
            [apply Hmonth; [reflexivity|discriminate|reflexivity]|]).
    destruct Hin.
  - reflexivity.
  - reflexivity.
  - reflexivity.
  - destruct lower_January_nbsp as [Hl Hs].
    unfold apply_filters, filter_month. rewrite Hl, Hs. reflexivity.
Qed.

Lemma C4_invalid_values_witness :
  apply_filters two_months (Some " decembeR") (Some "Monday") =
  Raise invalid_month /\
  filter_day two_months (Some "FUNDAY ") = Raise invalid_day.
Proof.
  split.
  - apply (proj1 (C4_invalid_values_are_rejected two_months));
      [reflexivity|discriminate|reflexivity].
  - apply (proj1 (proj2 (C4_invalid_values_are_rejected two_months))
             "FUNDAY " None); [reflexivity|discriminate|reflexivity].
Defined.

(** ** C5: which records the filtered view holds *)

(** C5: for a month value that, stripped and lower-cased, is one of
    january..june and a weekday value that, stripped and lower-cased, is one
    of the seven weekday names, the filtered view holds the records of the
    frame, in their order and as often as they occur, whose [month] is the
    1-based position [n] of the month name and whose [day_of_week],
    lower-cased, is the lower-cased weekday name; with only one of the two
    arguments, only that condition applies.  A record whose month or
    weekday is missing meets no condition on it. *)
Theorem C5_filtered_view {U : Str.Unicode} (df : DataFrame) (m w : string) :
  Str.mem (Str.lower (Str.strip m)) months = true ->
  Str.mem (Str.lower (Str.strip w)) days = true ->
  exists n,
    1 <= n <= 6 /\
    nth_error months (Z.to_nat (n - 1)) = Some (Str.lower (Str.strip m)) /\
    (exists v, apply_filters df (Some m) (Some w) = Ok v /\
               rows v =
               filter (fun r => Series.eq (month r) n &&
                                Series.eq (option_map Str.lower (day_of_week r))
                                          (Str.lower (Str.strip w)))
                      (rows df)) /\
    (exists v, apply_filters df (Some m) None = Ok v /\
               rows v = filter (fun r => Series.eq (month r) n) (rows df)) /\
    (exists v, apply_filters df None (Some w) = Ok v /\
               rows v =
               filter (fun r => Series.eq (option_map Str.lower (day_of_week r))
                                          (Str.lower (Str.strip w)))
                      (rows df)).
Proof.
  intros Hm Hw. destruct (filter_month_valid m Hm) as (n & Hn & Hnth & Hf).
  exists n. split; [assumption|]. split; [assumption|].
  unfold apply_filters. repeat apply conj.
  - rewrite Hf. cbn [rbind]. rewrite (filter_day_valid w _ Hw).
    eexists. split; [reflexivity|].
    now rewrite !rows_restrict, filter_filter.
  - rewrite Hf. cbn [rbind filter_day].
    eexists. split; [reflexivity|]. apply rows_restrict.
  - cbn [filter_month rbind]. rewrite (filter_day_valid w _ Hw).
    eexists. split; [reflexivity|]. apply rows_restrict.
Qed.

Lemma C5_filtered_view_witness :
  exists v,
    apply_filters two_months (Some " January") (Some "MONDAY ") = Ok v /\
    rows v = [trip "Monday" "C" "D" 20; trip "Monday" "C" "D" 20;
              trip "Monday" "I" "J" 50].
Proof.
  destruct (C5_filtered_view two_months " January" "MONDAY " eq_refl eq_refl)
    as (n & Hn & Hnth & (v & Hv & Hrows) & _).
  exists v. split; [exact Hv|].
  assert (n = 1) as ->.
  { assert (Hc : n = 1 \/ n = 2 \/ n = 3 \/ n = 4 \/ n = 5 \/ n = 6) by lia.
    destruct Hc as [->|[->|[->|[->|[->| ->]]]]];
      [reflexivity|discriminate Hnth..]. }
  exact Hrows.
Defined.

(** ** C6: filtering twice *)

(** C6: a view obtained by filtering a frame with a month and a weekday
    argument is returned unchanged when the same two arguments filter it
    again. *)
Theorem C6_filtering_is_idempotent {U : Str.Unicode}
  (df : DataFrame) (month_arg day_arg : option string) (v : DataFrame) :
  apply_filters df month_arg day_arg = Ok v ->
  apply_filters v month_arg day_arg = Ok v.
Proof.
  unfold apply_filters.
  destruct (filter_month_shape month_arg) as [Em|[Em|(p & Em)]];
    rewrite !Em; cbn [rbind]; [discriminate| |];
    (destruct (filter_day_shape day_arg) as [Ed|[Ed|(q & Ed)]];
     rewrite !Ed; [discriminate| |]); intros Hv; injection Hv as <-.
  - reflexivity.
  - now rewrite restrict_idempotent.
  - now rewrite restrict_idempotent.
  - f_equal. apply restrict_pair_idempotent.
Qed.

Lemma C6_filtering_witness :
  apply_filters
    (frame_of [trip "Monday" "C" "D" 20; trip "Monday" "C" "D" 20;
               trip "Monday" "I" "J" 50])
    (Some "january") (Some "Monday") =
  Ok (frame_of [trip "Monday" "C" "D" 20; trip "Monday" "C" "D" 20;
                trip "Monday" "I" "J" 50]).
Proof.
  apply (C6_filtering_is_idempotent two_months). reflexivity.
Defined.

(** ** C10: "all" with blanks around it *)

(** C10: a month or weekday argument that reads "all" once stripped and
    lower-cased, but not before, is not taken for "no restriction": the month
    filter rejects it with the invalid-month [ValueError] and the weekday
    filter with the invalid-day one, " all " among them; a month or weekday
    name with blanks around it, such as " January " or " Monday ", is
    stripped and accepted. *)
Theorem C10_padded_all_is_rejected {U : Str.Unicode} (df : DataFrame) :
  (forall s day_arg,
      Str.lower (Str.strip s) = "all" -> Str.lower s <> "all" ->
      apply_filters df (Some s) day_arg = Raise invalid_month) /\
  (forall s month_arg,
      Str.lower (Str.strip s) = "all" -> Str.lower s <> "all" ->
      filter_day df (Some s) = Raise invalid_day /\
      (apply_filters df month_arg (Some s) = Raise invalid_month \/
       apply_filters df month_arg (Some s) = Raise invalid_day)) /\
  apply_filters df (Some " all ") None = Raise invalid_month /\
  apply_filters df None (Some " all ") = Raise invalid_day /\
  apply_filters df (Some "all") (Some "all") = Ok df /\
  apply_filters df (Some " January ") None =
  Ok (restrict df (fun r => Series.eq (month r) 1)) /\
  apply_filters df None (Some " Monday ") =
  Ok (restrict df (fun r => Series.eq (option_map Str.lower (day_of_week r))
                                      "monday")).
Proof.
  assert (Ht : forall s, Str.lower (Str.strip s) = "all" -> Str.truthy s = true).
  { intros s Hs. destruct s; [discriminate|reflexivity]. }
  repeat apply conj; try reflexivity.
  - intros s day_arg Hs Hl. unfold apply_filters.
    rewrite (filter_month_invalid s df (Ht s Hs) Hl); [reflexivity|].
    now rewrite Hs.
  - intros s month_arg Hs Hl.
    assert (Hd : forall df', filter_day df' (Some s) = Raise invalid_day).
    { intros df'. apply filter_day_invalid; [now apply Ht|assumption|].
      now rewrite Hs. }
    split; [apply Hd|]. unfold apply_filters.
    destruct (filter_month_shape month_arg) as [E|[E|(p & E)]];
      rewrite E; cbn [rbind]; [now left|right..]; apply Hd.
Qed.

Lemma C10_padded_all_witness :
  apply_filters two_months (Some (" ALL" ++ String "010"%char "")) (Some "Monday")
  = Raise invalid_month.
Proof.
  apply (proj1 (C10_padded_all_is_rejected two_months));
    [reflexivity|discriminate].
Defined.

(** ** The statistics of [main], call by call *)

Lemma calls_within_invoke {A} (c : call) (f : Frame A) :
  calls_within [c] (invoke c f).
Proof.
  intros w c'. unfold invoke. destruct (f (frame w)) as [r df']. cbn.
  rewrite in_app_iff. tauto.
Qed.

Lemma calls_within_mret {A} (cs : list call) (a : A) :
  calls_within cs (mret a).
Proof. intros w c Hc. now left. Qed.

Lemma calls_within_mbind {A B} (cs : list call) (m : Main A) (k : A -> Main B) :
  calls_within cs m -> (forall a, calls_within cs (k a)) ->
  calls_within cs (mbind m k).
Proof.
  intros Hm Hk w c. unfold mbind.
  destruct (m w) as [[a|e] w'] eqn:E.
  - intros Hc. destruct (Hk a w' c Hc) as [Hin|Hin]; [|now right].
    apply (Hm w c). now rewrite E.
  - intros Hc. apply (Hm w c). now rewrite E.
Qed.

Lemma calls_within_weaken {A} (cs cs' : list call) (m : Main A) :
  incl cs cs' -> calls_within cs m -> calls_within cs' m.
Proof.
  intros Hi Hm w c Hc. destruct (Hm w c Hc); [now left|right; now apply Hi].
Qed.

Lemma gender_count_with_Trip (df : DataFrame) :
  gender_count (with_Trip df) = (fst (gender_count df), with_Trip df).
Proof.
  rewrite !gender_count_eq. cbn [demographics with_Trip].
  now destruct (demographics df).
Qed.

Lemma birth_year_stats_with_Trip (df : DataFrame) :
  birth_year_stats (with_Trip df) = (fst (birth_year_stats df), with_Trip df).
Proof.
  rewrite !birth_year_stats_eq. cbn [demographics with_Trip].
  destruct (demographics df); [|reflexivity].
  change (values Birth_Year (with_Trip df)) with (values Birth_Year df).
  cbn zeta. destruct (Series.int (Series.min _)); [|reflexivity].
  destruct (Series.int (Series.max _)); [|reflexivity].
  destruct (Series.item0 _); reflexivity.
Qed.

Section Statistics.
Context {F : Float64}.

(** For a city that line 293 does not list, the statistics of [main] call
    the seven common aggregators and nothing else. *)
Lemma statistics_common_calls (city : string) :
  supports_demographics city = false ->
  calls_within common_calls (statistics city).
Proof.
  intros Hs. unfold statistics. rewrite Hs.
  repeat (apply calls_within_mbind;
          [first [ apply calls_within_mret
                 | eapply calls_within_weaken; [|apply calls_within_invoke];
                   intros c [<-|[]]; cbn; tauto ]
          | intros ? ]).
  apply calls_within_mret.
Qed.

(** The statistics of [main] on a frame on which the first five
    aggregators succeed. *)
Lemma statistics_eq (city : string) (df : DataFrame)
  (mo : Z) (dy : string) (hr : Z) (st : string * string * string) (tot : Z) :
  fst (most_common_month df) = Ok mo ->
  fst (most_common_day df) = Ok dy ->
  fst (most_common_hour df) = Ok hr ->
  fst (most_common_stations df) = Ok st ->
  fst (total_travel_time df) = Ok tot ->
  statistics city {| frame := df; trace := [] |} =
  let after cs := {| frame := with_Trip df; trace := common_calls ++ cs |} in
  if supports_demographics city then
    match fst (gender_count df) with
    | Raise e => (Raise e, after [Call_gender_count])
    | Ok gender =>
        match fst (birth_year_stats df) with
        | Raise e =>
            (Raise e, after [Call_gender_count; Call_birth_year_stats])
        | Ok years =>
            (Ok (report_of df mo dy hr st tot (Some (gender, years))),
             after [Call_gender_count; Call_birth_year_stats])
        end
    end
  else (Ok (report_of df mo dy hr st tot None), after []).
Proof.
  rewrite most_common_month_eq, most_common_day_eq, most_common_hour_eq,
    total_travel_time_eq. cbn [fst].
  intros Hmo Hdy Hhr Hst Htot.
  assert (Hst' : most_common_stations df = (Ok st, with_Trip df)).
  { revert Hst. rewrite most_common_stations_eq.
    repeat (destruct (Series.item0 _); [|discriminate]).
    cbn [fst]. now intros [= <-]. }
  unfold statistics, mbind, invoke.
  destruct (supports_demographics city); cbn [frame trace];
    rewrite most_common_month_eq, Hmo; cbn [frame trace app];
    rewrite most_common_day_eq, Hdy; cbn [frame trace app];
    rewrite most_common_hour_eq, Hhr; cbn [frame trace app];
    rewrite Hst'; cbn [frame trace app];
    rewrite total_travel_time_eq; cbn [rows with_Trip]; rewrite Htot;
    cbn [frame trace app];
    rewrite average_travel_time_eq; cbn [frame trace app];
    rewrite user_types_count_eq; cbn [frame trace app];
    [|reflexivity].
  rewrite gender_count_with_Trip.
  destruct (fst (gender_count df)); [|reflexivity]. cbn [frame trace app].
  rewrite birth_year_stats_with_Trip.
  destruct (fst (birth_year_stats df)); reflexivity.
Qed.

(** The statistics of [main] on a frame on which one of the first five
    aggregators raises: the calls stop there. *)
Lemma statistics_total_raises (city : string) (df : DataFrame)
  (mo : Z) (dy : string) (hr : Z) (st : string * string * string) (e : exn) :
  fst (most_common_month df) = Ok mo ->
  fst (most_common_day df) = Ok dy ->
  fst (most_common_hour df) = Ok hr ->
  fst (most_common_stations df) = Ok st ->
  fst (total_travel_time df) = Raise e ->
  statistics city {| frame := df; trace := [] |} =
  (Raise e,
   {| frame := with_Trip df;
      trace := [Call_most_common_month; Call_most_common_day;
                Call_most_common_hour; Call_most_common_stations;
                Call_total_travel_time] |}).
Proof.
  rewrite most_common_month_eq, most_common_day_eq, most_common_hour_eq,
    total_travel_time_eq. cbn [fst].
  intros Hmo Hdy Hhr Hst Htot.
  assert (Hst' : most_common_stations df = (Ok st, with_Trip df)).
  { revert Hst. rewrite most_common_stations_eq.
    repeat (destruct (Series.item0 _); [|discriminate]).
    cbn [fst]. now intros [= <-]. }
  unfold statistics, mbind, invoke. cbn [frame trace].
  rewrite most_common_month_eq, Hmo. cbn [frame trace app].
  rewrite most_common_day_eq, Hdy. cbn [frame trace app].
  rewrite most_common_hour_eq, Hhr. cbn [frame trace app].
  rewrite Hst'. cbn [frame trace app].
  rewrite total_travel_time_eq. cbn [rows with_Trip]. rewrite Htot.
  reflexivity.
Qed.

End Statistics.

(** The four modes of the common statistics, on a view that has a value
    in each of the columns. *)
Lemma common_modes (df : DataFrame) :
  values month df <> [] -> values day_of_week df <> [] ->
  values hour df <> [] -> values trip_string df <> [] ->
  exists mo dy hr st,
    fst (most_common_month df) = Ok mo /\
    fst (most_common_day df) = Ok dy /\
    fst (most_common_hour df) = Ok hr /\
    fst (most_common_stations df) = Ok st.
Proof.
  intros Hm Hd Hh Ht.
  destruct (values_trip_string df Ht) as [Hs He].
  destruct (mode_item0_total _ Hm) as (mo & Hmo).
  destruct (mode_item0_total _ Hd) as (dy & Hdy).
  destruct (mode_item0_total _ Hh) as (hr & Hhr).
  destruct (mode_item0_total _ Hs) as (a & Ha).
  destruct (mode_item0_total _ He) as (b & Hb).
  destruct (mode_item0_total _ Ht) as (t & Htr).
  exists mo, dy, hr, (a, b, t).
  rewrite most_common_month_eq, most_common_day_eq, most_common_hour_eq,
    most_common_stations_eq, Hmo, Hdy, Hhr, Ha, Hb, Htr.
  repeat split.
Qed.

Section Rounds.
Context {U : Str.Unicode} {F : Float64}.

Lemma main_round_common_calls
  (read_csv : string -> result RawFrame)
  (to_datetime : list (option string) -> result (list (option Timestamp)))
  (city month_in day_in : string) :
  supports_demographics city = false ->
  forall c, In c (calls_of (main_round read_csv to_datetime city month_in day_in)) ->
            In c common_calls.
Proof.
  intros Hs c. unfold main_round.
  destruct (main_load read_csv to_datetime city month_in day_in) as [df|e].
  - pose proof (statistics_common_calls city Hs {| frame := df; trace := [] |} c)
      as Hw.
    destruct (statistics city {| frame := df; trace := [] |}) as [[r|e] w];
      cbn [calls_of snd trace] in *; intros Hc;
      destruct (Hw Hc) as [[]|Hin]; exact Hin.
  - destruct (is_ValueError e
              && negb (String.eqb month_in "all" && String.eqb day_in "all"));
      intros [].
Qed.

End Rounds.

(** ** C8: demographics *)

(** C8, the claim as stated, fails for a dataset that lacks the field
    ['Gender'] under the name of a city that line 293 of [main] lists: on a
    disk whose chicago.csv is without the two columns the frame loaded for
    "chicago" has none, and the round of [main] calls [gender_count], which
    ends it with a [KeyError]. *)
Lemma C8_listed_city_without_the_columns :
  (exists df, load_data chicago_without_columns parse_two "chicago" = Ok df /\
              demographics df = false) /\
  In Call_gender_count
     (calls_of (main_round chicago_without_columns parse_two
                           "chicago" "all" "all")) /\
  exists w, main_round chicago_without_columns parse_two "chicago" "all" "all"
            = Uncaught (KeyError "Gender") (Some w).
Proof.
  split; [eexists; split; reflexivity|].
  split; [vm_compute; tauto|].
  eexists. reflexivity.
Qed.

(** C8 (amended): on a frame without the column ['Gender'], and on every
    view filtered from such a frame, [gender_count] fails (with [KeyError],
    the exception its docstring names).  Whether [main] computes the
    demographics goes by the name of the city, not by what its dataset
    holds: for a city that line 293 does not list, "washington" among
    them, a round of [main] calls neither [gender_count] nor
    [birth_year_stats], whatever the file holds; for "chicago" and
    "new york city" a round in which the seven common aggregators succeed
    calls [gender_count] next, and on a dataset without the column that call
    ends the round with the [KeyError]. *)
Theorem C8_demographics_are_guarded {U : Str.Unicode} {F : Float64} :
  (forall df, demographics df = false ->
              gender_count df = (Raise (KeyError "Gender"), df)) /\
  (forall df month_arg day_arg v,
      demographics df = false ->
      apply_filters df month_arg day_arg = Ok v ->
      gender_count v = (Raise (KeyError "Gender"), v)) /\
  (forall read_csv to_datetime city month_in day_in,
      supports_demographics city = false ->
      ~ In Call_gender_count
           (calls_of (main_round read_csv to_datetime city month_in day_in)) /\
      ~ In Call_birth_year_stats
           (calls_of (main_round read_csv to_datetime city month_in day_in))) /\
  supports_demographics "washington" = false /\
  (forall city, supports_demographics city = true <->
                city = "chicago" \/ city = "new york city") /\
  (forall read_csv to_datetime city month_in day_in df,
      supports_demographics city = true ->
      main_load read_csv to_datetime city month_in day_in = Ok df ->
      demographics df = false ->
      values month df <> [] -> values day_of_week df <> [] ->
      values hour df <> [] -> values trip_string df <> [] ->
      is_ok (fst (total_travel_time df)) = true ->
      main_round read_csv to_datetime city month_in day_in =
      Uncaught (KeyError "Gender")
               (Some {| frame := with_Trip df;
                        trace := common_calls ++ [Call_gender_count] |})).
Proof.
  assert (G : forall df, demographics df = false ->
                         gender_count df = (Raise (KeyError "Gender"), df)).
  { intros df Hd. now rewrite gender_count_eq, Hd. }
  repeat apply conj.
  - exact G.
  - intros df month_arg day_arg v Hd Hv. apply G. revert Hv.
    unfold apply_filters.
    destruct (filter_month_shape month_arg) as [Em|[Em|(p & Em)]];
      rewrite Em; cbn [rbind]; [discriminate| |];
      (destruct (filter_day_shape day_arg) as [Ed|[Ed|(q & Ed)]];
       rewrite Ed; [discriminate| |]); intros Hv; injection Hv as <-;
      assumption.
  - intros read_csv to_datetime city month_in day_in Hs.
    split; intros Hin;
      apply (main_round_common_calls read_csv to_datetime city month_in day_in)
        in Hin; try assumption;
      cbn in Hin; intuition discriminate.
  - reflexivity.
  - intros city. unfold supports_demographics, Str.mem. cbn [existsb].
    rewrite !orb_true_iff, !String.eqb_eq. intuition discriminate.
  - intros read_csv to_datetime city month_in day_in df Hs Hl Hd Hm Hdy Hh Ht
      Htot.
    destruct (common_modes df Hm Hdy Hh Ht) as (mo & dy & hr & st & H1 & H2
                                                & H3 & H4).
    destruct (fst (total_travel_time df)) as [tot|e] eqn:Etot;
      [|discriminate].
    unfold main_round. rewrite Hl.
    rewrite (statistics_eq city df mo dy hr st tot H1 H2 H3 H4 Etot).
    cbn zeta. rewrite Hs, (G df Hd). reflexivity.
Qed.

Lemma C8_demographics_witness :
  calls_of (main_round washington_with_columns parse_two
                       "washington" "all" "all") = common_calls /\
  ~ In Call_gender_count
       (calls_of (main_round washington_with_columns parse_two
                             "washington" "all" "all")) /\
  fst (gender_count (frame_of [trip "Monday" "A" "B" 300])) =
  Raise (KeyError "Gender") /\
  (exists df,
      load_data chicago_without_columns parse_two "chicago" = Ok df /\
      main_round chicago_without_columns parse_two "chicago" "all" "all" =
      Uncaught (KeyError "Gender")
               (Some {| frame := with_Trip df;
                        trace := common_calls ++ [Call_gender_count] |})).
Proof.
  split; [reflexivity|]. split; [|split].
  - apply (proj1 (proj2 (proj2 C8_demographics_are_guarded))
             washington_with_columns parse_two "washington" "all" "all"
             eq_refl).
  - now rewrite (proj1 C8_demographics_are_guarded
                   (frame_of [trip "Monday" "A" "B" 300]) eq_refl).
  - eexists. split; [reflexivity|].
    apply (proj2 (proj2 (proj2 (proj2 (proj2 C8_demographics_are_guarded))))
             chicago_without_columns parse_two "chicago" "all" "all");
      try reflexivity; discriminate.
Defined.

(** ** C9: loading a city *)

Lemma dict_getitem_ok (d : list (string * string)) (key path : string) :
  dict_getitem d key = Ok path -> In (key, path) d.
Proof.
  induction d as [|[k v] d IH]; simpl; [discriminate|].
  destruct (String.eqb k key) eqn:E.
  - apply String.eqb_eq in E. intros [= ->]. subst. now left.
  - intros Hd. right. now apply IH.
Qed.

Lemma dict_getitem_missing (d : list (string * string)) (key : string) :
  Str.mem key (map fst d) = false -> dict_getitem d key = Raise (KeyError key).
Proof.
  unfold Str.mem. induction d as [|[k v] d IH]; simpl; [reflexivity|].
  rewrite (String.eqb_sym key k). destruct (String.eqb k key); simpl;
    [discriminate|assumption].
Qed.

Lemma CITY_DATA_lookup (key path : string) :
  In (key, path) CITY_DATA -> dict_getitem CITY_DATA key = Ok path.
Proof.
  simpl. intros [E|[E|[E|[]]]]; injection E as <- <-; reflexivity.
Qed.

(** With a case table that has the Kelvin sign lower-case to "k", as that
    of Unicode has, "NEW YOR" + U+212A + " CITY" lower-cases to the name of
    a city. *)
Lemma lower_kelvin {U : Str.Unicode} :
  Str.tolower kelvin_sign = "k" ->
  Str.lower ("NEW YOR" ++ kelvin_sign ++ " CITY") = "new york city".
Proof.
  intros Hk. unfold Str.lower. cbn. fold kelvin_sign.
  change (String "226" (String "132" (String "170" "")))
    with kelvin_sign.
  now rewrite Hk.
Qed.

(** C9, the claim as stated, fails where the file of a listed city cannot
    be read: "Chicago" matches a listed name and [load_data] fails. *)
Lemma C9_listed_city_unreadable_file :
  Str.mem (Str.lower "Chicago") (map fst CITY_DATA) = true /\
  load_data no_files parse_two "Chicago" =
  Raise (FileNotFoundError "chicago.csv").
Proof. split; reflexivity. Qed.

(** C9 (amended): [load_data] succeeds exactly when the identifier,
    lower-cased as [str.lower] does it, is one of the three listed city
    names, [read_csv] reads that city's file and [to_datetime] reads the
    column ['Start Time'] of the file; an identifier that matches none of
    the names makes it fail with an exception ([KeyError]), never with an
    empty frame.  Lower-casing is that of Unicode: an identifier written
    with the Kelvin sign for "k" matches "new york city". *)
Theorem C9_load_data_succeeds_iff {U : Str.Unicode}
  (read_csv : string -> result RawFrame)
  (to_datetime : list (option string) -> result (list (option Timestamp)))
  (city : string) :
  (is_ok (load_data read_csv to_datetime city) = true <->
   exists path raw,
     In (Str.lower city, path) CITY_DATA /\
     read_csv path = Ok raw /\
     is_ok (to_datetime (map raw_Start_Time (raw_rows raw))) = true) /\
  (Str.mem (Str.lower city) ["chicago"; "new york city"; "washington"] = false ->
   load_data read_csv to_datetime city = Raise (KeyError (Str.lower city))) /\
  (Str.tolower kelvin_sign = "k" ->
   city = "NEW YOR" ++ kelvin_sign ++ " CITY" ->
   load_data read_csv to_datetime city =
   rbind (read_csv "new_york_city.csv")
         (fun raw =>
            rbind (to_datetime (map raw_Start_Time (raw_rows raw)))
                  (fun times =>
                     Ok {| rows := map (fun p => derive (fst p) (snd p))
                                       (combine (raw_rows raw) times);
                           demographics := raw_demographics raw;
                           Trip := None |}))).
Proof.
  split; [|split].
  - unfold load_data. split.
    + destruct (dict_getitem CITY_DATA (Str.lower city)) as [path|e] eqn:Ed;
        cbn [rbind]; [|discriminate].
      destruct (read_csv path) as [raw|e] eqn:Er; cbn [rbind]; [|discriminate].
      intros Hok. exists path, raw.
      split; [now apply dict_getitem_ok|]. split; [exact Er|].
      now destruct (to_datetime (map raw_Start_Time (raw_rows raw))).
    + intros (path & raw & Hin & Hr & Hf).
      rewrite (CITY_DATA_lookup _ _ Hin). cbn [rbind]. rewrite Hr. cbn [rbind].
      now destruct (to_datetime (map raw_Start_Time (raw_rows raw))).
  - intros Hm. unfold load_data.
    now rewrite (dict_getitem_missing CITY_DATA (Str.lower city) Hm).
  - intros Hk ->. unfold load_data. now rewrite (lower_kelvin Hk).
Qed.

Lemma C9_load_data_witness :
  is_ok (load_data washington_only parse_two "WASHINGTON") = true /\
  load_data washington_only parse_two "boston" = Raise (KeyError "boston") /\
  load_data washington_only parse_two ("NEW YOR" ++ kelvin_sign ++ " CITY") =
  Raise (FileNotFoundError "new_york_city.csv").
Proof.
  split; [|split].
  - apply (C9_load_data_succeeds_iff washington_only parse_two "WASHINGTON").
    exists "washington.csv". eexists.
    split; [right; right; left; reflexivity|].
    split; reflexivity.
  - apply (C9_load_data_succeeds_iff washington_only parse_two "boston").
    reflexivity.
  - apply (proj2 (proj2 (C9_load_data_succeeds_iff
                           washington_only parse_two
                           ("NEW YOR" ++ kelvin_sign ++ " CITY"))));
      reflexivity.
Defined.

(** * Further properties of the code *)

(** ** Tables of counts *)

Section CountTables.
Context {A : Type} `{DtypeLaws A}.

Lemma nodup_unique (s : list A) : NoDup (Series.unique s).
Proof.
  induction s as [|x s IH]; simpl; constructor.
  - rewrite filter_In. intros [_ E]. rewrite eqb_refl in E. discriminate.
  - now apply NoDup_filter.
Qed.

Lemma insert_count_perm (p : A * nat) (l : list (A * nat)) :
  Permutation (Series.insert_count p l) (p :: l).
Proof.
  induction l as [|q l IH]; simpl; [reflexivity|].
  destruct (snd q <=? snd p)%nat; [reflexivity|].
  rewrite IH. apply perm_swap.
Qed.

Lemma sorted_counts_perm (l : list (A * nat)) :
  Permutation (fold_right Series.insert_count [] l) l.
Proof.
  induction l as [|p l IH]; simpl; [reflexivity|].
  rewrite insert_count_perm. now constructor.
Qed.

Lemma insert_count_descending (p : A * nat) (l : list (A * nat)) :
  descending l -> descending (Series.insert_count p l).
Proof.
  unfold descending. induction l as [|q l IH]; simpl; intros Hl.
  - repeat constructor.
  - destruct (snd q <=? snd p)%nat eqn:E.
    + apply Nat.leb_le in E. constructor; [assumption|]. now constructor.
    + apply Nat.leb_gt in E. inversion Hl as [|? ? Hs Hh]; subst.
      constructor; [now apply IH|].
      destruct l as [|q' l]; simpl.
      * constructor. simpl. lia.
      * destruct (snd q' <=? snd p)%nat; constructor.
        -- lia.
        -- now inversion Hh.
Qed.

Lemma sorted_counts_descending (l : list (A * nat)) :
  descending (fold_right Series.insert_count [] l).
Proof.
  induction l as [|p l IH]; simpl; [constructor|].
  now apply insert_count_descending.
Qed.

Lemma sum_perm (l l' : list nat) :
  Permutation l l' -> fold_right Nat.add 0%nat l = fold_right Nat.add 0%nat l'.
Proof. induction 1; simpl; lia. Qed.

Lemma sum_split (f : A -> nat) (x : A) (l : list A) :
  NoDup l -> (~ In x l -> f x = 0%nat) ->
  fold_right Nat.add 0%nat (map f l) =
  (f x + fold_right Nat.add 0%nat
           (map f (filter (fun y => negb (eqb x y)) l)))%nat.
Proof.
  induction 1 as [|y l Hy Hl IH]; simpl; intros Hx.
  - rewrite Hx; [reflexivity|tauto].
  - destruct (eqb x y) eqn:E; simpl.
    + apply eqb_eq in E. subst y. rewrite filter_all_true; [reflexivity|].
      apply Forall_forall. intros z Hz. apply negb_true_iff, eqb_neq.
      intros ->. contradiction.
    + rewrite IH; [lia|]. intros Hn. apply Hx. intros [->|Hin]; [|contradiction].
      rewrite eqb_refl in E. discriminate.
Qed.

Lemma count_cons_other (x y : A) (s : list A) :
  eqb x y = false -> Series.count y (x :: s) = Series.count y s.
Proof.
  intros E. simpl. destruct (eqb y x) eqn:E'; [|reflexivity].
  apply eqb_eq in E'. subst. rewrite eqb_refl in E. discriminate.
Qed.

(** The counts of the distinct values add up to the length of the column. *)
Lemma sum_counts_unique (s : list A) :
  fold_right Nat.add 0%nat
    (map (fun x => Series.count x s) (Series.unique s)) = List.length s.
Proof.
  induction s as [|x s IH]; [reflexivity|].
  cbn [Series.unique map fold_right List.length].
  replace (map (fun y => Series.count y (x :: s))
               (filter (fun y => negb (eqb x y)) (Series.unique s)))
    with (map (fun y => Series.count y s)
              (filter (fun y => negb (eqb x y)) (Series.unique s))).
  - rewrite <- IH.
    rewrite (sum_split (fun y => Series.count y s) x (Series.unique s)).
    + simpl. rewrite eqb_refl. lia.
    + apply nodup_unique.
    + intros Hn. apply count_zero. intros Hin. apply Hn. now apply in_unique.
  - apply map_ext_in. intros y Hy. apply filter_In in Hy.
    destruct Hy as [_ Hy]. apply negb_true_iff in Hy.
    symmetry. now apply count_cons_other.
Qed.

(** What [value_counts] returns: one entry for each value of the column,
    with its count, in descending order of count; the counts add up to the
    length of the column. *)
Lemma value_counts_table (s : list A) :
  NoDup (map fst (Series.value_counts s)) /\
  (forall c n, In (c, n) (Series.value_counts s) <->
               In c s /\ n = Series.count c s) /\
  descending (Series.value_counts s) /\
  total_count (Series.value_counts s) = List.length s.
Proof.
  unfold Series.value_counts.
  pose proof (sorted_counts_perm
                (map (fun x => (x, Series.count x s)) (Series.unique s))) as P.
  repeat apply conj.
  - apply (Permutation_NoDup (l := Series.unique s)); [|apply nodup_unique].
    symmetry. apply (Permutation_map fst) in P.
    rewrite map_map in P. cbn [fst] in P. now rewrite map_id in P.
  - intros c n. split.
    + intros Hin. apply (Permutation_in _ P) in Hin.
      apply in_map_iff in Hin. destruct Hin as (x & E & Hx).
      injection E as -> <-. split; [now apply in_unique|reflexivity].
    + intros [Hin ->]. apply (Permutation_in _ (Permutation_sym P)).
      apply in_map_iff. exists c. split; [reflexivity|now apply in_unique].
  - apply sorted_counts_descending.
  - unfold total_count. apply (Permutation_map snd) in P.
    rewrite (sum_perm _ _ P), map_map. cbn [snd]. apply sum_counts_unique.
Qed.

Lemma count_perm (x : A) (s s' : list A) :
  Permutation s s' -> Series.count x s = Series.count x s'.
Proof. induction 1; simpl; lia. Qed.

Lemma item0_raise (l : list A) (e : exn) :
  Series.item0 l = Raise e -> e = KeyError "0".
Proof. destruct l; [intros [= <-]; reflexivity|discriminate]. Qed.

Lemma smallest_mode_transfer (s s' : list A) (v : A) :
  (forall x, Series.count x s = Series.count x s') ->
  highest_count v s -> smallest_tied v s ->
  highest_count v s' /\ smallest_tied v s'.
Proof.
  intros Hc [Hin Hmax] Hs. split; [split|].
  - apply count_in. rewrite <- Hc. now apply count_pos.
  - intros x. rewrite <- !Hc. apply Hmax.
  - intros x Hx. apply Hs. now rewrite !Hc.
Qed.

(** [s.mode()[0]] depends on the counts only. *)
Lemma mode_item0_counts (s s' : list A) :
  (forall x, Series.count x s = Series.count x s') ->
  Series.item0 (Series.mode s) = Series.item0 (Series.mode s').
Proof.
  intros Hc.
  destruct (Series.item0 (Series.mode s)) as [v|e] eqn:E.
  - destruct (mode_item0_sound s v E) as [Hh Hs].
    destruct (smallest_mode_transfer s s' v Hc Hh Hs) as [Hh' Hs'].
    symmetry. now apply mode_item0_complete.
  - destruct (Series.item0 (Series.mode s')) as [v|e'] eqn:E'.
    + destruct (mode_item0_sound s' v E') as [Hh Hs].
      destruct (smallest_mode_transfer s' s v (fun x => eq_sym (Hc x)) Hh Hs)
        as [Hh' Hs'].
      rewrite (mode_item0_complete s v Hh' Hs') in E. discriminate.
    + now rewrite (item0_raise _ _ E), (item0_raise _ _ E').
Qed.

(** On a column that holds one value only, that value is the mode. *)
Lemma mode_item0_constant (s : list A) (v : A) :
  s <> [] -> (forall x, In x s -> x = v) ->
  Series.item0 (Series.mode s) = Ok v.
Proof.
  intros Hne Hall.
  destruct (mode_item0_total s Hne) as (w & Hw). rewrite Hw. f_equal.
  apply Hall. now apply (mode_item0_sound s w Hw).
Qed.

End CountTables.

Lemma length_dropna {A B} (f : A -> option B) (l : list A) :
  List.length (Series.dropna (map f l)) =
  List.length (filter (fun x => match f x with Some _ => true | None => false end) l).
Proof.
  induction l as [|x l IH]; simpl; [reflexivity|].
  destruct (f x); simpl; now rewrite IH.
Qed.

(** X1: [user_types_count] raises nothing and leaves the frame alone; its
    table has one entry for each user type that occurs in the view, with the
    number of records of that type, in descending order of count; records
    without a user type (NaN) get no entry and are not counted, so the
    counts add up to the number of records that have one (an empty view
    gives an empty table). *)
Theorem user_types_count_table (df : DataFrame) :
  exists t,
    user_types_count df = (Ok t, df) /\
    NoDup (map fst t) /\
    (forall c n, In (c, n) t <->
                 In (Some c) (map User_Type (rows df)) /\
                 n = Series.count c (values User_Type df)) /\
    descending t /\
    total_count t =
    List.length (filter (fun r => match User_Type r with
                                  | Some _ => true
                                  | None => false
                                  end) (rows df)) /\
    (rows df = [] -> t = []).
Proof.
  eexists. split; [apply user_types_count_eq|].
  destruct (value_counts_table (values User_Type df)) as (N & I & D & T).
  unfold values in T. rewrite length_dropna in T.
  repeat apply conj; try assumption.
  - intros c n. rewrite I. unfold values. now rewrite in_dropna.
  - intros E. unfold values. now rewrite E.
Qed.

(** X2: on a frame that has the column ['Gender'], [gender_count] returns a
    table with one entry for each gender on record, with its number of
    records, in descending order of count; records without a gender (NaN)
    get no entry and are not counted, so the counts add up to the number of
    records that have one. *)
Theorem gender_count_table (df : DataFrame) :
  demographics df = true ->
  exists t,
    gender_count df = (Ok t, df) /\
    NoDup (map fst t) /\
    (forall g n, In (g, n) t <->
                 In (Some g) (map Gender (rows df)) /\
                 n = Series.count g (Series.dropna (map Gender (rows df)))) /\
    descending t /\
    total_count t =
    List.length (filter (fun r => match Gender r with
                                  | Some _ => true
                                  | None => false
                                  end) (rows df)).
Proof.
  intros Hd. eexists. split; [rewrite gender_count_eq, Hd; reflexivity|].
  destruct (value_counts_table (values Gender df)) as (N & I & D & T).
  unfold values in *. rewrite length_dropna in T.
  repeat apply conj; try assumption.
  intros g n. rewrite I. now rewrite in_dropna.
Qed.

Lemma gender_count_table_witness :
  exists t,
    gender_count three_riders = (Ok t, three_riders) /\
    total_count t = 2%nat.
Proof.
  destruct (gender_count_table three_riders eq_refl)
    as (t & Ht & _ & _ & _ & Hsum).
  exists t. split; [exact Ht|exact Hsum].
Defined.

(** ** The order of the records *)

Lemma Zsum_perm (l l' : list Z) :
  Permutation l l' -> Series.Zsum l = Series.Zsum l'.
Proof. unfold Series.Zsum. induction 1; simpl; lia. Qed.

Lemma dropna_perm {A} (s s' : list (option A)) :
  Permutation s s' -> Permutation (Series.dropna s) (Series.dropna s').
Proof.
  induction 1 as [|[x|] l l' P IH|[x|] [y|] l|l l' l'' P1 IH1 P2 IH2]; simpl;
    try (constructor; assumption); try apply Permutation_refl;
    try assumption.
  now apply Permutation_trans with (Series.dropna l').
Qed.

Lemma mode_item0_perm {A} `{DtypeLaws A} (s s' : list A) :
  Permutation s s' ->
  Series.item0 (Series.mode s) = Series.item0 (Series.mode s').
Proof.
  intros P. apply mode_item0_counts. intros x. now apply count_perm.
Qed.

(** X3: the most common month, weekday, hour, stations and trip of a view
    do not depend on the order of its records, and no more does the total
    travel time of durations that are integers: those add up exactly,
    modulo 2^64. *)
Theorem statistics_ignore_order {F : Float64} (df df' : DataFrame) :
  Permutation (rows df) (rows df') ->
  fst (most_common_month df) = fst (most_common_month df') /\
  fst (most_common_day df) = fst (most_common_day df') /\
  fst (most_common_hour df) = fst (most_common_hour df') /\
  fst (most_common_stations df) = fst (most_common_stations df') /\
  (forall l, map Trip_Duration (rows df) = map Int l ->
             fst (total_travel_time df) = fst (total_travel_time df')).
Proof.
  intros P.
  assert (M : forall {A} `{DtypeLaws A} (f : Row -> option A),
             Series.item0 (Series.mode (values f df)) =
             Series.item0 (Series.mode (values f df'))).
  { intros A D L f. apply mode_item0_perm. apply dropna_perm.
    now apply Permutation_map. }
  rewrite !most_common_month_eq, !most_common_day_eq, !most_common_hour_eq,
    !most_common_stations_eq, !total_travel_time_eq.
  cbn [fst]. repeat apply conj.
  - apply (M _ _ _ month).
  - apply (M _ _ _ day_of_week).
  - apply (M _ _ _ hour).
  - rewrite (M _ _ _ Start_Station), (M _ _ _ End_Station),
      (M _ _ _ trip_string).
    repeat (destruct (Series.item0 _)); reflexivity.
  - intros l E.
    assert (P' : Permutation (map Trip_Duration (rows df'))
                             (map Int l)).
    { rewrite <- E. apply Permutation_sym. now apply Permutation_map. }
    destruct (Permutation_map_inv _ _ P') as (l' & E' & Pl).
    rewrite E, E'. unfold Series.sum. rewrite !ints_map_Int.
    now rewrite (Zsum_perm _ _ Pl).
Qed.

Lemma statistics_ignore_order_witness :
  fst (most_common_stations three_riders) =
  fst (most_common_stations three_riders_reordered) /\
  fst (total_travel_time three_riders) =
  fst (total_travel_time three_riders_reordered).
Proof.
  assert (P : Permutation (rows three_riders) (rows three_riders_reordered))
    by apply perm_swap.
  split; [apply (statistics_ignore_order _ _ P)|].
  apply (proj2 (proj2 (proj2 (proj2 (statistics_ignore_order _ _ P))))
           [100; 200; 300]).
  reflexivity.
Defined.

(** ** More on the filters *)

Lemma filter_month_refused {U : Str.Unicode} (df : DataFrame) (month_arg : option string) :
  refused months month_arg = true ->
  filter_month df month_arg = Raise invalid_month.
Proof.
  destruct month_arg as [mo|]; [|discriminate]. unfold refused, filter_month.
  destruct (Str.truthy mo && negb (String.eqb (Str.lower mo) "all"));
    [|discriminate].
  cbn [andb]. now intros ->.
Qed.

Lemma filter_month_accepted {U : Str.Unicode} (month_arg : option string) :
  refused months month_arg = false ->
  (forall df, filter_month df month_arg = Ok df) \/
  (exists p, forall df, filter_month df month_arg = Ok (restrict df p)).
Proof.
  intros Hr. destruct (filter_month_shape month_arg) as [E|[E|E]]; auto.
  exfalso. specialize (E empty_view).
  destruct month_arg as [mo|]; [|discriminate E].
  unfold filter_month in E. unfold refused in Hr.
  destruct (Str.truthy mo && negb (String.eqb (Str.lower mo) "all"));
    [|discriminate E].
  cbn [andb] in Hr. apply negb_false_iff in Hr. rewrite Hr in E.
  cbn [negb] in E. destruct (index_of_member _ _ Hr) as (i & Hi & _).
  rewrite Hi in E. discriminate E.
Qed.

Lemma filter_day_refused {U : Str.Unicode} (df : DataFrame) (day_arg : option string) :
  refused days day_arg = true -> filter_day df day_arg = Raise invalid_day.
Proof.
  destruct day_arg as [dy|]; [|discriminate]. unfold refused, filter_day.
  destruct (Str.truthy dy && negb (String.eqb (Str.lower dy) "all"));
    [|discriminate].
  cbn [andb]. now intros ->.
Qed.

Lemma filter_day_accepted {U : Str.Unicode} (day_arg : option string) :
  refused days day_arg = false ->
  (forall df, filter_day df day_arg = Ok df) \/
  (exists p, forall df, filter_day df day_arg = Ok (restrict df p)).
Proof.
  intros Hr. destruct (filter_day_shape day_arg) as [E|[E|E]]; auto.
  exfalso. specialize (E empty_view).
  destruct day_arg as [dy|]; [|discriminate E].
  unfold filter_day in E. unfold refused in Hr.
  destruct (Str.truthy dy && negb (String.eqb (Str.lower dy) "all"));
    [|discriminate E].
  cbn [andb] in Hr. apply negb_false_iff in Hr. rewrite Hr in E.
  discriminate E.
Qed.

Lemma Trip_restrict_none (df : DataFrame) (p : Row -> bool) :
  Trip df = None -> Trip (restrict df p) = None.
Proof. unfold restrict, getitem_mask. cbn [Trip]. now intros ->. Qed.

(** A view made by the filters selects rows of the frame by a condition
    and keeps which columns there are. *)
Lemma apply_filters_view {U : Str.Unicode} (df v : DataFrame) (month_arg day_arg : option string) :
  apply_filters df month_arg day_arg = Ok v ->
  demographics v = demographics df /\
  (Trip df = None -> Trip v = None) /\
  exists p, rows v = filter p (rows df).
Proof.
  unfold apply_filters.
  destruct (filter_month_shape month_arg) as [Em|[Em|(p & Em)]];
    rewrite Em; cbn [rbind]; [discriminate| |];
    (destruct (filter_day_shape day_arg) as [Ed|[Ed|(q & Ed)]];
     rewrite Ed; [discriminate| |]); intros [= <-].
  - repeat split; [tauto|]. exists (fun _ => true).
    symmetry. apply filter_all_true. apply Forall_forall. reflexivity.
  - repeat split; [apply Trip_restrict_none|].
    exists q. apply rows_restrict.
  - repeat split; [apply Trip_restrict_none|].
    exists p. apply rows_restrict.
  - repeat split.
    + intros Ht. now apply Trip_restrict_none, Trip_restrict_none.
    + exists (fun r => p r && q r).
      now rewrite !rows_restrict, filter_filter.
Qed.

(** X4: [load_data_filtered] loads before it looks at the filters.  When
    [load_data] fails, its exception is the result whatever the filter
    arguments; on a loaded frame a refused month argument raises the
    invalid-month error whatever the weekday argument, and a refused weekday
    argument raises the invalid-day error only when the month argument
    passed; when neither is refused, the result is a view. *)
Theorem load_data_filtered_outcomes {U : Str.Unicode}
  (read_csv : string -> result RawFrame)
  (to_datetime : list (option string) -> result (list (option Timestamp)))
  (city : string) (month_arg day_arg : option string) :
  (forall e, load_data read_csv to_datetime city = Raise e ->
             load_data_filtered read_csv to_datetime city month_arg day_arg =
             Raise e) /\
  (forall df, load_data read_csv to_datetime city = Ok df ->
     (refused months month_arg = true ->
      load_data_filtered read_csv to_datetime city month_arg day_arg =
      Raise invalid_month) /\
     (refused months month_arg = false -> refused days day_arg = true ->
      load_data_filtered read_csv to_datetime city month_arg day_arg =
      Raise invalid_day) /\
     (refused months month_arg = false -> refused days day_arg = false ->
      exists v,
        load_data_filtered read_csv to_datetime city month_arg day_arg =
        Ok v)).
Proof.
  unfold load_data_filtered. split.
  - now intros e ->.
  - intros df ->. cbn [rbind]. unfold apply_filters. repeat apply conj.
    + intros Hm. now rewrite filter_month_refused.
    + intros Hm Hd.
      destruct (filter_month_accepted month_arg Hm) as [E|(p & E)];
        rewrite E; cbn [rbind]; now apply filter_day_refused.
    + intros Hm Hd.
      destruct (filter_month_accepted month_arg Hm) as [E|(p & E)];
        rewrite E; cbn [rbind];
        (destruct (filter_day_accepted day_arg Hd) as [E'|(q & E')];
         rewrite E'; eexists; reflexivity).
Qed.

Lemma load_data_filtered_outcomes_witness :
  load_data_filtered washington_only parse_two "boston" (Some "July")
    (Some "Funday") = Raise (KeyError "boston") /\
  load_data_filtered washington_only parse_two "washington" (Some "July")
    (Some "Funday") = Raise invalid_month /\
  load_data_filtered washington_only parse_two "washington" (Some "June")
    (Some "Funday") = Raise invalid_day /\
  exists v,
    load_data_filtered washington_only parse_two "washington" (Some "June")
      (Some "Friday") = Ok v.
Proof.
  repeat apply conj.
  - apply (proj1 (load_data_filtered_outcomes washington_only parse_two
                    "boston" (Some "July") (Some "Funday"))).
    reflexivity.
  - eapply (proj2 (load_data_filtered_outcomes washington_only parse_two
                     "washington" (Some "July") (Some "Funday")));
      reflexivity.
  - eapply (proj2 (load_data_filtered_outcomes washington_only parse_two
                     "washington" (Some "June") (Some "Funday")));
      reflexivity.
  - eapply (proj2 (load_data_filtered_outcomes washington_only parse_two
                     "washington" (Some "June") (Some "Friday")));
      reflexivity.
Defined.

(** X5: a view the filters return holds rows of the frame only, in the
    order of the frame, selected by one condition on the row (so of two
    equal records both are kept or neither); it has the ['Gender'] and
    ['Birth Year'] columns exactly when the frame has them, and no more rows
    than the frame. *)
Theorem filtered_view_is_a_selection {U : Str.Unicode}
  (df v : DataFrame) (month_arg day_arg : option string) :
  apply_filters df month_arg day_arg = Ok v ->
  (exists p, rows v = filter p (rows df)) /\
  (forall r, In r (rows v) -> In r (rows df)) /\
  (List.length (rows v) <= List.length (rows df))%nat /\
  demographics v = demographics df.
Proof.
  intros Hv. destruct (apply_filters_view _ _ _ _ Hv) as (Hd & _ & p & Hp).
  repeat apply conj.
  - now exists p.
  - intros r. rewrite Hp, filter_In. tauto.
  - rewrite Hp. apply filter_length_le.
  - exact Hd.
Qed.

Lemma filtered_view_is_a_selection_witness :
  (List.length
     (rows (frame_of [trip "Monday" "C" "D" 20; trip "Monday" "C" "D" 20;
                      trip "Monday" "I" "J" 50])) <=
   List.length (rows two_months))%nat.
Proof.
  apply (filtered_view_is_a_selection two_months _ (Some "january")
           (Some "Monday")).
  reflexivity.
Defined.

Lemma filter_absent_month {U : Str.Unicode} (df : DataFrame) (s : string) :
  Str.lower s = "all" \/ s = "" -> filter_month df (Some s) = Ok df.
Proof.
  unfold filter_month. intros [E| ->]; [|reflexivity].
  rewrite E, String.eqb_refl. cbn [negb]. now rewrite andb_false_r.
Qed.

Lemma filter_absent_day {U : Str.Unicode} (df : DataFrame) (s : string) :
  Str.lower s = "all" \/ s = "" -> filter_day df (Some s) = Ok df.
Proof.
  unfold filter_day. intros [E| ->]; [|reflexivity].
  rewrite E, String.eqb_refl. cbn [negb]. now rewrite andb_false_r.
Qed.

(** X6: an argument that lower-cases to "all" ("all", "ALL", "All", ...) and
    the empty string filter exactly as an omitted argument does, for the
    month and for the weekday, whatever the other argument is. *)
Theorem all_filters_like_omitted {U : Str.Unicode}
  (df : DataFrame) (s : string) (other : option string) :
  Str.lower s = "all" \/ s = "" ->
  apply_filters df (Some s) other = apply_filters df None other /\
  apply_filters df other (Some s) = apply_filters df other None.
Proof.
  intros Hs. unfold apply_filters. split.
  - now rewrite (filter_absent_month df s Hs).
  - destruct (filter_month df other) as [df'|e]; cbn [rbind]; [|reflexivity].
    now rewrite (filter_absent_day df' s Hs).
Qed.

Lemma all_filters_like_omitted_witness :
  apply_filters two_months (Some "ALL") (Some "monday") =
  apply_filters two_months None (Some "monday") /\
  apply_filters two_months (Some "june") (Some "All") =
  apply_filters two_months (Some "june") None.
Proof.
  split.
  - apply (all_filters_like_omitted two_months "ALL" (Some "monday")).
    left. reflexivity.
  - apply (all_filters_like_omitted two_months "All" (Some "june")).
    left. reflexivity.
Defined.

Lemma select_nil {A} (mask : list bool) : select mask (@nil A) = [].
Proof. unfold select. now destruct mask. Qed.

Lemma select_select {A B} (p q : A -> bool) (l : list A) :
  forall t : list B,
    select (map q (filter p l)) (select (map p l) t) =
    select (map (fun x => p x && q x) l) t.
Proof.
  induction l as [|x l IH]; intros t.
  - reflexivity.
  - destruct t as [|y t]; [now rewrite !select_nil|].
    specialize (IH t). unfold select in *. simpl.
    destruct (p x) eqn:Px; simpl; [|exact IH].
    destruct (q x); simpl; now rewrite IH.
Qed.

Lemma restrict_restrict (df : DataFrame) (p q : Row -> bool) :
  restrict (restrict df p) q = restrict df (fun r => p r && q r).
Proof.
  unfold restrict, getitem_mask. cbn [rows demographics Trip]. f_equal.
  - rewrite !select_map_filter. apply filter_filter.
  - rewrite select_map_filter. destruct (Trip df) as [t|]; simpl; [|reflexivity].
    f_equal. apply select_select.
Qed.

Lemma restrict_ext (df : DataFrame) (p q : Row -> bool) :
  (forall r, p r = q r) -> restrict df p = restrict df q.
Proof.
  intros E. unfold restrict. f_equal. apply map_ext. exact E.
Qed.

(** X7: the two filters commute.  When neither argument is refused,
    filtering a frame by the weekday alone and the result by the month alone
    gives the view that filtering by both gives. *)
Theorem filters_commute {U : Str.Unicode} (df : DataFrame) (month_arg day_arg : option string) :
  refused months month_arg = false -> refused days day_arg = false ->
  rbind (apply_filters df None day_arg)
        (fun v => apply_filters v month_arg None) =
  apply_filters df month_arg day_arg.
Proof.
  intros Hm Hd. unfold apply_filters. cbn [filter_month filter_day rbind].
  destruct (filter_month_accepted month_arg Hm) as [Em|(p & Em)];
    destruct (filter_day_accepted day_arg Hd) as [Ed|(q & Ed)];
    rewrite ?Ed; cbn [rbind]; rewrite ?Em; cbn [rbind]; rewrite ?Ed;
    try reflexivity.
  f_equal. rewrite !restrict_restrict. apply restrict_ext.
  intros r. apply andb_comm.
Qed.

Lemma filters_commute_witness :
  rbind (apply_filters two_months None (Some "Monday"))
        (fun v => apply_filters v (Some "January") None) =
  apply_filters two_months (Some "January") (Some "Monday").
Proof.
  apply (filters_commute two_months (Some "January") (Some "Monday"));
    reflexivity.
Defined.

Lemma Series_eq_true {A} `{DtypeLaws A} (v : option A) (x : A) :
  Series.eq v x = true <-> v = Some x.
Proof.
  destruct v as [y|]; simpl.
  - rewrite eqb_eq. split; congruence.
  - split; discriminate.
Qed.

(** In a frame restricted by a condition on a column, every row that is
    left has a value in that column. *)
Lemma values_restrict_nonempty {A} (f : Row -> option A) (v : DataFrame)
  (x : Row -> A) :
  rows v <> [] -> (forall r, In r (rows v) -> f r = Some (x r)) ->
  values f v <> [].
Proof.
  intros Hne Hall. destruct (rows v) as [|r rs] eqn:E; [easy|].
  unfold values. rewrite E. simpl.
  rewrite (Hall r (or_introl eq_refl)). discriminate.
Qed.

(** X8: in a view filtered by a month name that is not empty,
    [most_common_month] returns the number of that month, from 1 for
    january to 6 for june; in a view filtered by a weekday name that is not
    empty, [most_common_day] returns a name that lower-cases to that
    weekday. *)
Theorem filtered_view_modes {U : Str.Unicode} (df v : DataFrame) :
  rows v <> [] ->
  (forall m day_arg,
      Str.mem (Str.lower (Str.strip m)) months = true ->
      apply_filters df (Some m) day_arg = Ok v ->
      exists n,
        1 <= n <= 6 /\
        nth_error months (Z.to_nat (n - 1)) = Some (Str.lower (Str.strip m)) /\
        fst (most_common_month v) = Ok n) /\
  (forall w month_arg,
      Str.mem (Str.lower (Str.strip w)) days = true ->
      apply_filters df month_arg (Some w) = Ok v ->
      exists name,
        fst (most_common_day v) = Ok name /\
        Str.lower name = Str.lower (Str.strip w)).
Proof.
  intros Hne. split.
  - intros m day_arg Hm Hv.
    destruct (filter_month_valid m Hm) as (n & Hb & Hn & Hf).
    exists n. split; [assumption|]. split; [assumption|].
    unfold apply_filters in Hv. rewrite Hf in Hv. cbn [rbind] in Hv.
    assert (Hall : forall r, In r (rows v) -> month r = Some n).
    { intros r Hr. apply Series_eq_true.
      destruct (filter_day_shape day_arg) as [E|[E|(q & E)]];
        rewrite E in Hv; [discriminate| |]; injection Hv as <-.
      - rewrite rows_restrict in Hr.
        apply (proj1 (filter_In _ _ _)) in Hr. apply Hr.
      - rewrite !rows_restrict in Hr.
        apply (proj1 (filter_In _ _ _)) in Hr. destruct Hr as [Hr _].
        apply (proj1 (filter_In _ _ _)) in Hr. apply Hr. }
    rewrite most_common_month_eq. cbn [fst].
    apply mode_item0_constant.
    + now apply (values_restrict_nonempty month v (fun _ => n)).
    + intros x Hx. apply in_values in Hx. destruct Hx as (r & Hr & Hx).
      rewrite (Hall r Hr) in Hx. congruence.
  - intros w month_arg Hw Hv. unfold apply_filters in Hv.
    destruct (filter_month df month_arg) as [df1|e]; cbn [rbind] in Hv;
      [|discriminate].
    rewrite (filter_day_valid w df1 Hw) in Hv. injection Hv as <-.
    rewrite most_common_day_eq. cbn [fst].
    set (v := restrict df1 _) in *.
    assert (Hall : forall r, In r (rows v) ->
                exists name, day_of_week r = Some name /\
                             Str.lower name = Str.lower (Str.strip w)).
    { intros r Hr. unfold v in Hr. rewrite rows_restrict in Hr.
      apply (proj1 (filter_In _ _ _)) in Hr. destruct Hr as [_ Hr].
      apply Series_eq_true in Hr.
      destruct (day_of_week r) as [name|]; [|discriminate].
      exists name. split; [reflexivity|]. now injection Hr. }
    assert (Hv : values day_of_week v <> []).
    { destruct (rows v) as [|r rs] eqn:E; [easy|].
      destruct (Hall r) as (name & Hname & _); [now left|].
      unfold values. rewrite E. simpl. rewrite Hname. discriminate. }
    destruct (mode_item0_total _ Hv) as (name & Hname).
    exists name. split; [assumption|].
    destruct (mode_item0_sound _ _ Hname) as [[Hin _] _].
    apply in_values in Hin. destruct Hin as (r & Hr & Hd).
    destruct (Hall r Hr) as (name' & Hn' & Hl). congruence.
Qed.

Lemma filtered_view_modes_witness :
  exists n,
    1 <= n <= 6 /\
    nth_error months (Z.to_nat (n - 1)) = Some "february" /\
    fst (most_common_month
           (frame_of [in_month 2 (trip "Monday" "A" "B" 10);
                      in_month 2 (trip "Tuesday" "G" "H" 40)])) = Ok n.
Proof.
  assert (Hne : rows (frame_of [in_month 2 (trip "Monday" "A" "B" 10);
                                in_month 2 (trip "Tuesday" "G" "H" 40)]) <> [])
    by discriminate.
  apply (proj1 (filtered_view_modes two_months _ Hne) " February" None);
    reflexivity.
Defined.

(** ** Birth years *)

Lemma fold_min_spec (x : Z) (l : list Z) :
  In (fold_right Z.min x l) (x :: l) /\
  forall y, In y (x :: l) -> fold_right Z.min x l <= y.
Proof.
  induction l as [|a l [Hin Hle]]; simpl.
  - split; [now left|]. intros y [<-|[]]. lia.
  - split.
    + destruct (Z.min_spec a (fold_right Z.min x l)) as [[_ ->]|[_ ->]];
        simpl in *; tauto.
    + intros y [E|[E|Hy]].
      * specialize (Hle y (or_introl E)). lia.
      * lia.
      * specialize (Hle y (or_intror Hy)). lia.
Qed.

Lemma fold_max_spec (x : Z) (l : list Z) :
  In (fold_right Z.max x l) (x :: l) /\
  forall y, In y (x :: l) -> y <= fold_right Z.max x l.
Proof.
  induction l as [|a l [Hin Hle]]; simpl.
  - split; [now left|]. intros y [<-|[]]. lia.
  - split.
    + destruct (Z.max_spec a (fold_right Z.max x l)) as [[_ ->]|[_ ->]];
        simpl in *; tauto.
    + intros y [E|[E|Hy]].
      * specialize (Hle y (or_introl E)). lia.
      * lia.
      * specialize (Hle y (or_intror Hy)). lia.
Qed.

(** X10: [birth_year_stats] raises [KeyError] on a frame without the column
    ['Birth Year'], and [ValueError] (from [int] of NaN) when the column is
    there but no record of the view has a birth year, an empty view among
    them; otherwise it returns three birth years that occur in the view, the
    first the smallest and the second the largest of all, so the most common
    one lies between them.  It leaves the frame alone. *)
Theorem birth_year_stats_outcomes (df : DataFrame) :
  (demographics df = false ->
   birth_year_stats df = (Raise (KeyError "Birth Year"), df)) /\
  (demographics df = true ->
   Series.dropna (map Birth_Year (rows df)) = [] ->
   birth_year_stats df =
   (Raise (ValueError "cannot convert float NaN to integer"), df)) /\
  (demographics df = true ->
   Series.dropna (map Birth_Year (rows df)) <> [] ->
   exists earliest latest common,
     birth_year_stats df = (Ok (earliest, latest, common), df) /\
     In earliest (Series.dropna (map Birth_Year (rows df))) /\
     In latest (Series.dropna (map Birth_Year (rows df))) /\
     In common (Series.dropna (map Birth_Year (rows df))) /\
     (forall y, In y (Series.dropna (map Birth_Year (rows df))) ->
                earliest <= y <= latest) /\
     earliest <= common <= latest).
Proof.
  rewrite birth_year_stats_eq. unfold values. repeat apply conj.
  - now intros ->.
  - intros -> E. cbn zeta. now rewrite E.
  - intros -> Hne. cbn zeta.
    destruct (Series.dropna (map Birth_Year (rows df))) as [|y ys] eqn:Hs;
      [easy|].
    cbn [Series.min Series.max Series.int].
    destruct (mode_item0_total (y :: ys)) as (c & Hc); [easy|]. rewrite Hc.
    destruct (fold_min_spec y ys) as [Imin Lmin].
    destruct (fold_max_spec y ys) as [Imax Lmax].
    assert (Ic : In c (y :: ys)) by apply (mode_item0_sound _ _ Hc).
    exists (fold_right Z.min y ys), (fold_right Z.max y ys), c.
    repeat split; auto.
Qed.

Lemma birth_year_stats_outcomes_witness :
  birth_year_stats (frame_of []) = (Raise (KeyError "Birth Year"), frame_of []) /\
  exists earliest latest common,
    birth_year_stats three_riders = (Ok (earliest, latest, common), three_riders) /\
    earliest <= common <= latest.
Proof.
  split.
  - apply (proj1 (birth_year_stats_outcomes (frame_of []))). reflexivity.
  - destruct (proj2 (proj2 (birth_year_stats_outcomes three_riders)) eq_refl)
      as (e & l & c & H & _ & _ & _ & _ & Hb); [discriminate|].
    exists e, l, c. split; [exact H|exact Hb].
Defined.

(** ** A view without records *)

(** X11: on a view without records [most_common_month], [most_common_day],
    [most_common_hour] and [most_common_stations] raise [KeyError] (the mode
    of an empty column has no entry 0) and leave the frame as it was, while
    [user_types_count] returns an empty table; so a round of [main] whose
    filters match no record ends with that [KeyError], uncaught, after its
    first call. *)
Theorem empty_view_outcomes {U : Str.Unicode} {F : Float64} (df : DataFrame) :
  rows df = [] ->
  most_common_month df = (Raise (KeyError "0"), df) /\
  most_common_day df = (Raise (KeyError "0"), df) /\
  most_common_hour df = (Raise (KeyError "0"), df) /\
  most_common_stations df = (Raise (KeyError "0"), df) /\
  user_types_count df = (Ok [], df) /\
  (forall read_csv to_datetime city month_in day_in,
      main_load read_csv to_datetime city month_in day_in = Ok df ->
      main_round read_csv to_datetime city month_in day_in =
      Uncaught (KeyError "0")
               (Some {| frame := df; trace := [Call_most_common_month] |})).
Proof.
  intros He.
  assert (Hm : most_common_month df = (Raise (KeyError "0"), df))
    by (rewrite most_common_month_eq, (values_nil _ _ He); reflexivity).
  repeat apply conj.
  - exact Hm.
  - rewrite most_common_day_eq, (values_nil _ _ He). reflexivity.
  - rewrite most_common_hour_eq, (values_nil _ _ He). reflexivity.
  - rewrite most_common_stations_eq, (values_nil _ _ He). reflexivity.
  - rewrite user_types_count_eq, (values_nil _ _ He). reflexivity.
  - intros read_csv to_datetime city month_in day_in Hl.
    unfold main_round. rewrite Hl.
    unfold statistics, mbind, invoke. cbn [frame trace]. now rewrite Hm.
Qed.

Lemma empty_view_outcomes_witness :
  main_round washington_only parse_two "washington" "june" "all" =
  Uncaught (KeyError "0")
           (Some {| frame := frame_of []; trace := [Call_most_common_month] |}).
Proof.
  apply (empty_view_outcomes (frame_of []) eq_refl). reflexivity.
Defined.

(** ** The statistics of one round of [main] *)

(** X12: for a city that line 293 does not list and a view that is not
    empty (one with a value in each of the columns the modes are taken
    of), the statistics of [main] run to the end unless the total travel
    time raises: the seven common aggregators are called once each, in the
    order of the source, the report holds what each returns on the view and
    no demographics, and the frame [main] holds has gained the column
    ['Trip'].  The total raises on no column of integers; where it does
    raise, the statistics end with its exception, after five calls. *)
Theorem statistics_without_demographics {F : Float64}
  (city : string) (df : DataFrame) :
  values month df <> [] -> values day_of_week df <> [] ->
  values hour df <> [] -> values trip_string df <> [] ->
  supports_demographics city = false ->
  (is_ok (fst (total_travel_time df)) = true ->
   exists r,
     statistics city {| frame := df; trace := [] |} =
     (Ok r, {| frame := with_Trip df; trace := common_calls |}) /\
     report_demographics r = None /\
     fst (most_common_month df) = Ok (report_month r) /\
     fst (most_common_day df) = Ok (report_day r) /\
     fst (most_common_hour df) = Ok (report_hour r) /\
     fst (most_common_stations df) = Ok (report_stations r) /\
     fst (total_travel_time df) = Ok (report_total r) /\
     fst (average_travel_time df) = Ok (report_average r) /\
     fst (user_types_count df) = Ok (report_user_types r)) /\
  (forall l, map Trip_Duration (rows df) = map Int l ->
             is_ok (fst (total_travel_time df)) = true) /\
  (forall e,
      fst (total_travel_time df) = Raise e ->
      statistics city {| frame := df; trace := [] |} =
      (Raise e,
       {| frame := with_Trip df;
          trace := [Call_most_common_month; Call_most_common_day;
                    Call_most_common_hour; Call_most_common_stations;
                    Call_total_travel_time] |})).
Proof.
  intros Hm Hd Hh Ht Hs.
  destruct (common_modes df Hm Hd Hh Ht)
    as (mo & dy & hr & st & H1 & H2 & H3 & H4).
  repeat apply conj.
  - intros Hok.
    destruct (fst (total_travel_time df)) as [tot|e] eqn:Etot;
      [|discriminate].
    rewrite (statistics_eq city df mo dy hr st tot H1 H2 H3 H4 Etot).
    cbn zeta. rewrite Hs. eexists. split; [reflexivity|].
    repeat split; assumption.
  - intros l E. rewrite total_travel_time_eq, E. cbn [fst].
    unfold Series.sum. now rewrite ints_map_Int.
  - intros e Etot. now apply (statistics_total_raises city df mo dy hr st).
Qed.

Lemma statistics_without_demographics_witness :
  exists r,
    statistics "washington" {| frame := three_durations; trace := [] |} =
    (Ok r, {| frame := with_Trip three_durations; trace := common_calls |}) /\
    report_demographics r = None.
Proof.
  destruct (statistics_without_demographics "washington" three_durations)
    as (H & _); try discriminate; try reflexivity.
  destruct (H eq_refl) as (r & Hr & Hd & _).
  exists r. split; [exact Hr|exact Hd].
Defined.



(** X14: the column that [most_common_stations] assigns changes no
    statistic: every other aggregator returns on the frame with the column
    what it returns on the frame without it, and a second call of
    [most_common_stations] returns what the first returned and leaves the
    frame as the first left it. *)
Theorem Trip_column_is_inert {F : Float64} (df : DataFrame) :
  fst (most_common_month (with_Trip df)) = fst (most_common_month df) /\
  fst (most_common_day (with_Trip df)) = fst (most_common_day df) /\
  fst (most_common_hour (with_Trip df)) = fst (most_common_hour df) /\
  fst (total_travel_time (with_Trip df)) = fst (total_travel_time df) /\
  fst (average_travel_time (with_Trip df)) = fst (average_travel_time df) /\
  fst (user_types_count (with_Trip df)) = fst (user_types_count df) /\
  fst (gender_count (with_Trip df)) = fst (gender_count df) /\
  fst (birth_year_stats (with_Trip df)) = fst (birth_year_stats df) /\
  most_common_stations (snd (most_common_stations df)) =
  most_common_stations df.
Proof.
  repeat apply conj; try reflexivity.
  - now rewrite gender_count_with_Trip.
  - now rewrite birth_year_stats_with_Trip.
  - rewrite (most_common_stations_eq df).
    destruct (Series.item0 (Series.mode (values Start_Station df)))
      as [a|e] eqn:Ha; cbn [snd];
      [|now rewrite most_common_stations_eq, Ha].
    destruct (Series.item0 (Series.mode (values End_Station df)))
      as [b|e] eqn:Hb; cbn [snd];
      [|now rewrite most_common_stations_eq, Ha, Hb].
    destruct (Series.item0 (Series.mode (values trip_string df)))
      as [t|e] eqn:Ht; cbn [snd];
      rewrite most_common_stations_eq;
      change (values Start_Station (with_Trip df))
        with (values Start_Station df);
      change (values End_Station (with_Trip df))
        with (values End_Station df);
      change (values trip_string (with_Trip df))
        with (values trip_string df);
      now rewrite Ha, Hb, Ht.
Qed.

(** ** The prompts *)

Lemma ask_spec {U : Str.Unicode} (accept : string -> bool) (stdin : list string) :
  match ask accept stdin with
  | Answered v n rest =>
      exists wrong line,
        stdin = (wrong ++ line :: rest)%list /\
        List.length wrong = n /\
        v = answer line /\
        accept v = true /\
        Forall (fun l => accept (answer l) = false) wrong
  | Eof n =>
      n = List.length stdin /\
      Forall (fun l => accept (answer l) = false) stdin
  end.
Proof.
  induction stdin as [|line rest IH]; simpl.
  - split; [reflexivity|constructor].
  - destruct (accept (answer line)) eqn:E.
    + exists [], line. repeat split; [assumption|constructor].
    + destruct (ask accept rest) as [v n rest'|n].
      * destruct IH as (wrong & line' & -> & <- & -> & Hv & Hw).
        exists (line :: wrong), line'. repeat split; [assumption|].
        now constructor.
      * destruct IH as [-> Hw]. split; [reflexivity|now constructor].
Qed.

(** X16: each validation loop of [main] returns the first line typed that,
    stripped and lower-cased, passes its test, in that stripped and
    lower-cased form; every line before it failed the test and got one
    message; the lines after it are left unread.  When no line passes, the
    loop reads to the end of the input ([EOFError]). *)
Theorem ask_returns_first_accepted {U : Str.Unicode} (accept : string -> bool) (stdin : list string) :
  match ask accept stdin with
  | Answered v n rest =>
      exists wrong line,
        stdin = (wrong ++ line :: rest)%list /\
        List.length wrong = n /\
        v = answer line /\
        accept v = true /\
        Forall (fun l => accept (answer l) = false) wrong
  | Eof n =>
      n = List.length stdin /\
      Forall (fun l => accept (answer l) = false) stdin
  end.
Proof. apply ask_spec. Qed.

Lemma ask_shorter {U : Str.Unicode} (accept : string -> bool) (stdin : list string)
  (v : string) (n : nat) (rest : list string) :
  ask accept stdin = Answered v n rest ->
  (List.length rest < List.length stdin)%nat.
Proof.
  intros E. pose proof (ask_spec accept stdin) as H.
  rewrite E in H. destruct H as (wrong & line & -> & _).
  rewrite length_app. simpl. lia.
Qed.

Lemma ask_accepts {U : Str.Unicode} (accept : string -> bool) (stdin : list string)
  (v : string) (n : nat) (rest : list string) :
  ask accept stdin = Answered v n rest -> accept v = true.
Proof.
  intros E. pose proof (ask_spec accept stdin) as H.
  rewrite E in H. now destruct H as (wrong & line & _ & _ & _ & Hv & _).
Qed.

(** ** The raw-data display *)

Lemma firstn_add {A} (a b : nat) (l : list A) :
  firstn (a + b) l = (firstn a l ++ firstn b (skipn a l))%list.
Proof.
  revert l. induction a as [|a IH]; intros l; [reflexivity|].
  destruct l as [|x l]; simpl.
  - now rewrite firstn_nil.
  - now rewrite IH.
Qed.

Lemma display_raw_data_from_pages {U : Str.Unicode} (df : DataFrame) (stdin : list string) :
  forall start,
    display_raw_data_from df start stdin =
    (map (fun i => page df (start + 5 * i)) (seq 0 (leading_yes stdin)),
     match skipn (leading_yes stdin) stdin with
     | [] => None
     | _ :: rest => Some rest
     end).
Proof.
  induction stdin as [|line rest IH]; intros start; [reflexivity|].
  cbn [display_raw_data_from leading_yes].
  destruct (String.eqb (answer line) "yes"); cbn [negb]; [|reflexivity].
  rewrite IH. cbn [seq map skipn]. f_equal.
  replace (start + 5 * 0)%nat with start by lia. unfold page at 2. f_equal.
  rewrite <- seq_shift, map_map. apply map_ext. intros i.
  f_equal. lia.
Qed.

(** X17: [display_raw_data] prints one page for each of the leading lines
    that, stripped and lower-cased, read "yes", and stops at the first line
    that does not, which it consumes; page number [i] (from 0) is
    [df.iloc[5*i : 5*i+5]].  It never stops by itself: when every line reads
    "yes" it runs into the end of the input. *)
Theorem display_raw_data_pages {U : Str.Unicode} (df : DataFrame) (stdin : list string) :
  display_raw_data df stdin =
  (map (fun i => page df (5 * i)) (seq 0 (leading_yes stdin)),
   match skipn (leading_yes stdin) stdin with
   | [] => None
   | _ :: rest => Some rest
   end).
Proof.
  unfold display_raw_data. now rewrite display_raw_data_from_pages.
Qed.

Lemma concat_pages (l : list Row) (k : nat) :
  forall start,
    List.concat (map (fun i => firstn (start + 5 * i + 5 - (start + 5 * i))
                                 (skipn (start + 5 * i) l)) (seq 0 k)) =
    firstn (5 * k) (skipn start l).
Proof.
  induction k as [|k IH]; intros start; [reflexivity|].
  cbn [seq map List.concat]. rewrite <- seq_shift, map_map.
  replace (5 * S k)%nat with (5 + 5 * k)%nat by lia.
  rewrite firstn_add, skipn_skipn.
  replace (start + 5 * 0 + 5 - (start + 5 * 0))%nat with 5%nat by lia.
  replace (start + 5 * 0)%nat with start by lia. f_equal.
  rewrite <- (IH (5 + start)%nat). f_equal. apply map_ext. intros i.
  f_equal; [lia|f_equal; lia].
Qed.

(** X18: the pages [display_raw_data] prints, put end to end, are the
    first [5 * k] rows of the frame, in order, where [k] is the number of
    pages; no page has more than five rows, and a page that starts at or past
    the last row is empty: nothing is raised there. *)
Theorem display_raw_data_covers_the_rows {U : Str.Unicode} (df : DataFrame) (stdin : list string) :
  let printed := fst (display_raw_data df stdin) in
  List.concat (map rows printed) = firstn (5 * List.length printed) (rows df) /\
  Forall (fun p => (List.length (rows p) <= 5)%nat) printed /\
  (forall i, (List.length (rows df) <= 5 * i)%nat -> rows (page df (5 * i)) = []).
Proof.
  cbn zeta. unfold display_raw_data. rewrite display_raw_data_from_pages.
  cbn [fst].
  rewrite length_map, length_seq. repeat apply conj.
  - rewrite map_map. unfold page, iloc. cbn [rows].
    exact (concat_pages (rows df) (leading_yes stdin) 0).
  - apply Forall_forall. intros p Hp. apply in_map_iff in Hp.
    destruct Hp as (i & <- & _). unfold page, iloc. cbn [rows].
    rewrite length_firstn. lia.
  - intros i Hi. unfold page, iloc. cbn [rows].
    rewrite skipn_all2; [apply firstn_nil|assumption].
Qed.

Lemma display_shorter {U : Str.Unicode} (df : DataFrame) (stdin rest : list string)
  (printed : list DataFrame) :
  display_raw_data df stdin = (printed, Some rest) ->
  (List.length rest < List.length stdin)%nat.
Proof.
  unfold display_raw_data. rewrite display_raw_data_from_pages.
  intros [= _ E].
  destruct (skipn (leading_yes stdin) stdin) as [|x r] eqn:Hs; [discriminate|].
  injection E as ->.
  pose proof (length_skipn (leading_yes stdin) stdin) as Hl.
  rewrite Hs in Hl. simpl in Hl. lia.
Qed.

(** ** The rounds of [main] *)

Lemma main_load_is_one_call_aux {U : Str.Unicode}
  (read_csv : string -> result RawFrame)
  (to_datetime : list (option string) -> result (list (option Timestamp))) (city month_in day_in : string) :
  main_load read_csv to_datetime city month_in day_in =
  load_data_filtered read_csv to_datetime city (Some month_in) (Some day_in).
Proof.
  unfold main_load, load_data_filtered.
  destruct (String.eqb month_in "all") eqn:Em;
    destruct (String.eqb day_in "all") eqn:Ed; cbn [negb andb];
    try apply String.eqb_eq in Em; try apply String.eqb_eq in Ed; subst;
    try reflexivity;
    destruct (load_data read_csv to_datetime city) as [df|e];
    cbn [rbind]; reflexivity.
Qed.

(** X19: the four branches of lines 254-273 of [main] do what the single
    call [load_data_filtered(city, month, day)] does, whatever the three
    answers are: an answer "all" filters like an omitted argument. *)
Theorem main_load_is_one_call {U : Str.Unicode}
  (read_csv : string -> result RawFrame)
  (to_datetime : list (option string) -> result (list (option Timestamp))) (city month_in day_in : string) :
  main_load read_csv to_datetime city month_in day_in =
  load_data_filtered read_csv to_datetime city (Some month_in) (Some day_in).
Proof. apply main_load_is_one_call_aux. Qed.

Lemma mem_cases (x : string) (l : list string) :
  Str.mem x l = true -> In x l.
Proof.
  unfold Str.mem. intros H. apply existsb_exists in H.
  destruct H as (y & Hy & E). apply String.eqb_eq in E. now subst.
Qed.

Lemma valid_month_passes {U : Str.Unicode} (month_in : string) :
  valid_month month_in = true -> refused months (Some month_in) = false.
Proof.
  unfold valid_month. rewrite negb_true_iff, andb_false_iff, !negb_false_iff.
  intros [E|E].
  - apply String.eqb_eq in E. now subst.
  - apply mem_cases in E. simpl in E.
    repeat (destruct E as [<-|E]; [reflexivity|]). destruct E.
Qed.

Lemma valid_day_passes {U : Str.Unicode} (day_in : string) :
  valid_day day_in = true -> refused days (Some day_in) = false.
Proof.
  unfold valid_day. rewrite negb_true_iff, andb_false_iff, !negb_false_iff.
  intros [E|E].
  - apply String.eqb_eq in E. now subst.
  - apply mem_cases in E. simpl in E.
    repeat (destruct E as [<-|E]; [reflexivity|]). destruct E.
Qed.

(** X20: with answers that passed the three validation loops, the look-up
    of the city in [CITY_DATA] succeeds and neither filter refuses its
    argument: loading and filtering in [main] fails only when [load_data]
    fails, with the exception of [load_data], and otherwise gives the
    filtered view. *)
Theorem prompts_make_filters_pass {U : Str.Unicode}
  (read_csv : string -> result RawFrame)
  (to_datetime : list (option string) -> result (list (option Timestamp))) (city month_in day_in : string) :
  valid_city city = true ->
  valid_month month_in = true ->
  valid_day day_in = true ->
  (exists path, dict_getitem CITY_DATA (Str.lower city) = Ok path) /\
  (forall e, main_load read_csv to_datetime city month_in day_in = Raise e <->
             load_data read_csv to_datetime city = Raise e) /\
  (forall df, load_data read_csv to_datetime city = Ok df ->
              exists v,
                main_load read_csv to_datetime city month_in day_in = Ok v /\
                apply_filters df (Some month_in) (Some day_in) = Ok v).
Proof.
  intros Hc Hm Hd.
  apply valid_month_passes in Hm. apply valid_day_passes in Hd.
  assert (Hv : forall df, exists v,
               apply_filters df (Some month_in) (Some day_in) = Ok v).
  { intros df. unfold apply_filters.
    destruct (filter_month_accepted _ Hm) as [E|(p & E)]; rewrite E;
      cbn [rbind];
      (destruct (filter_day_accepted _ Hd) as [E'|(q & E')]; rewrite E';
       eexists; reflexivity). }
  rewrite main_load_is_one_call_aux. unfold load_data_filtered.
  repeat apply conj.
  - apply mem_cases in Hc. simpl in Hc.
    repeat (destruct Hc as [<-|Hc]; [eexists; reflexivity|]). destruct Hc.
  - intros e. destruct (load_data read_csv to_datetime city) as [df|e'];
      cbn [rbind]; [|tauto].
    destruct (Hv df) as (v & ->). split; discriminate.
  - intros df ->. cbn [rbind]. destruct (Hv df) as (v & E).
    exists v. now split.
Qed.

Lemma prompts_make_filters_pass_witness :
  exists v,
    main_load washington_only parse_two "washington" "january" "tuesday" = Ok v /\
    rows v =
    [mkRow (Some (mkTimestamp 2017 1 3 10 0 0)) (Int 500) (Some "A")
           (Some "C") (Some "Customer") None None
           (Some 1) (Some "Tuesday") (Some 10)].
Proof.
  destruct (load_data washington_only parse_two "washington") as [df|e] eqn:E;
    [|discriminate E].
  destruct (proj2 (proj2 (prompts_make_filters_pass washington_only parse_two
                            "washington" "january" "tuesday"
                            eq_refl eq_refl eq_refl)) df E)
    as (v & Hv & Hf).
  exists v. split; [exact Hv|].
  injection E as <-. injection Hf as <-. reflexivity.
Defined.

Section Runs.
Context {U : Str.Unicode} {F : Float64}.

Variable read_csv : string -> result RawFrame.
Variable to_datetime :
  list (option string) -> result (list (option Timestamp)).

Lemma main_fuel_irrelevant (fuel : nat) :
  forall fuel' stdin,
    (List.length stdin < fuel)%nat -> (List.length stdin < fuel')%nat ->
    main read_csv to_datetime fuel stdin =
    main read_csv to_datetime fuel' stdin.
Proof.
  induction fuel as [|fuel IH]; intros fuel' stdin Hf Hf'; [lia|].
  destruct fuel' as [|fuel']; [lia|]. cbn [main].
  destruct (ask valid_city stdin) as [city n1 s1|n1] eqn:E1; [|reflexivity].
  apply ask_shorter in E1.
  destruct (ask valid_month s1) as [mo n2 s2|n2] eqn:E2; [|reflexivity].
  apply ask_shorter in E2.
  destruct (ask valid_day s2) as [dy n3 s3|n3] eqn:E3; [|reflexivity].
  apply ask_shorter in E3.
  destruct (main_round read_csv to_datetime city mo dy) as [e|e w|r w].
  - rewrite (IH fuel' s3); [reflexivity|lia|lia].
  - reflexivity.
  - destruct (display_raw_data (frame w) s3) as [printed [s4|]] eqn:Ed;
      [|reflexivity].
    apply display_shorter in Ed.
    destruct s4 as [|line s5]; [reflexivity|]. simpl in Ed.
    destruct (negb (String.eqb (answer line) "yes")); [reflexivity|].
    rewrite (IH fuel' s5); [reflexivity|lia|lia].
Qed.

Lemma main_has_fuel (fuel : nat) :
  forall stdin,
    (List.length stdin < fuel)%nat ->
    snd (main read_csv to_datetime fuel stdin) <> Out_of_fuel.
Proof.
  induction fuel as [|fuel IH]; intros stdin Hf; [lia|]. cbn [main].
  destruct (ask valid_city stdin) as [city n1 s1|n1] eqn:E1; [|discriminate].
  apply ask_shorter in E1.
  destruct (ask valid_month s1) as [mo n2 s2|n2] eqn:E2; [|discriminate].
  apply ask_shorter in E2.
  destruct (ask valid_day s2) as [dy n3 s3|n3] eqn:E3; [|discriminate].
  apply ask_shorter in E3.
  destruct (main_round read_csv to_datetime city mo dy) as [e|e w|r w].
  - specialize (IH s3). destruct (main read_csv to_datetime fuel s3).
    cbn [snd] in *. apply IH. lia.
  - discriminate.
  - destruct (display_raw_data (frame w) s3) as [printed [s4|]] eqn:Ed;
      [|discriminate].
    apply display_shorter in Ed.
    destruct s4 as [|line s5]; [discriminate|]. simpl in Ed.
    destruct (negb (String.eqb (answer line) "yes")); [discriminate|].
    specialize (IH s5). destruct (main read_csv to_datetime fuel s5).
    cbn [snd] in *. apply IH. lia.
Qed.

End Runs.

(** X21: a run of [main] on finitely many lines of input ends: by the
    answer to the restart question, at the end of the input ([EOFError]), or
    with an exception that a round does not catch.  Fuel above the number of
    lines is never used up, and any two such amounts of fuel give the same
    run. *)
Theorem main_ends {U : Str.Unicode} {F : Float64}
  (read_csv : string -> result RawFrame)
  (to_datetime : list (option string) -> result (list (option Timestamp)))
  (fuel : nat) (stdin : list string) :
  (List.length stdin < fuel)%nat ->
  snd (main read_csv to_datetime fuel stdin) <> Out_of_fuel /\
  main read_csv to_datetime fuel stdin =
  main read_csv to_datetime (S (List.length stdin)) stdin.
Proof.
  intros Hf. split.
  - now apply main_has_fuel.
  - apply main_fuel_irrelevant; lia.
Qed.

Lemma main_ends_witness :
  snd (main washington_only parse_two 100
         ["paris"; " Washington "; "all"; "all"; "yes"; "no"; "no"]) = Exited.
Proof.
  destruct (main_ends washington_only parse_two 100
              ["paris"; " Washington "; "all"; "all"; "yes"; "no"; "no"])
    as [_ E]; [simpl; lia|].
  rewrite E. reflexivity.
Defined.
